(** * tqqq_tasty: monthly TQQQ rebalancing against a fixed dollar allocation

    A shallow embedding of [tqqq_tasty.py].  Python values are an inductive
    type, Python floats are the kernel's binary64 numbers, exceptions are an
    error result, and everything the script does to the outside (the shelve
    file, the clock, the brokerage API, the mail relay, the log) is threaded
    through an explicit [world].

    Left out: the set-up of the log file at import time, the polling loop
    under [__main__], failures to open the shelf, and whatever does not
    derive from [Exception] (an interrupt from the keyboard).  f-strings are
    kept as the list of their pieces rather than rendered. *)

From Stdlib Require Import ZArith QArith Qabs Floats Ascii Lia.
From stdpp Require Import gmap strings list.

#[local] Set Warnings "-inexact-float,-register-all".
#[local] Open Scope Z_scope.

(** ** Python values and exceptions *)

Inductive exn :=
| KeyError (key : string)
| TypeError
| ValueError
| OverflowError
| ZeroDivisionError
| AttributeError
| IndexError
| ExternalError (name : string).
(* [ExternalError]: whatever [requests], [smtplib] or a JSON decoder raises;
   like the others it derives from [Exception]. *)

Inductive result (A : Type) :=
| Ok (a : A)
| Raise (e : exn).
Arguments Ok {A} a.
Arguments Raise {A} e.

#[global] Instance result_ret : MRet result := λ A a, Ok a.
#[global] Instance result_bind : MBind result := λ A B k r,
  match r with
  | Ok a => k a
  | Raise e => Raise e
  end.

(** What [response.json()] yields, and what a shelf can hold: JSON data plus
    [datetime] (microseconds since the epoch). *)
Inductive pyval :=
| PNone
| PBool (b : bool)
| PInt (z : Z)
| PFloat (f : float)
| PStr (s : string)
| PList (l : list pyval)
| PDict (d : gmap string pyval)
| PDatetime (t : Z).

(** [bool(v)] *)
Definition truthy (v : pyval) : bool :=
  match v with
  | PNone => false
  | PBool b => b
  | PInt z => negb (z =? 0)
  | PFloat f => negb (f =? 0)%float
  | PStr s => negb (String.eqb s "")
  | PList l => negb (bool_decide (length l = 0%nat))
  | PDict d => negb (bool_decide (size d = 0%nat))
  | PDatetime _ => true
  end.

(** [v[key]] for a string key. *)
Definition getitem (v : pyval) (key : string) : result pyval :=
  match v with
  | PDict d =>
      match d !! key with
      | Some x => Ok x
      | None => Raise (KeyError key)
      end
  | _ => Raise TypeError
  end.

(** [v == s] for a string literal [s]: comparing another type is [False]. *)
Definition eq_str (v : pyval) (s : string) : bool :=
  match v with
  | PStr s' => String.eqb s' s
  | _ => false
  end.

(** [for x in v]: the elements of a list, the keys of a dict, the characters
    of a string. *)
Fixpoint chars (s : string) : list pyval :=
  match s with
  | EmptyString => []
  | String c s' => PStr (String c EmptyString) :: chars s'
  end.

Definition iterate (v : pyval) : result (list pyval) :=
  match v with
  | PList l => Ok l
  | PDict d => Ok (PStr <$> (map_to_list d).*1)
  | PStr s => Ok (chars s)
  | _ => Raise TypeError
  end.

(** ** Floats *)

Definition is_finite (x : float) : bool :=
  match Prim2SF x with
  | S754_zero _ | S754_finite _ _ _ => true
  | _ => false
  end.

(** An [int] as a [float], correctly rounded. *)
Definition Z2float (z : Z) : float :=
  SF2Prim (binary_normalize prec emax z 0 false).

(** [float(int)] and [int op float] raise when the integer is out of range. *)
Definition float_of_int (z : Z) : result float :=
  let f := Z2float z in
  if is_finite f then Ok f else Raise OverflowError.

(** The integer part of a finite binary number, towards zero. *)
Definition SF_trunc (s : bool) (m : positive) (e : Z) : Z :=
  let a := if 0 <=? e then Z.pos m * 2 ^ e else Z.pos m / 2 ^ (- e) in
  if s then - a else a.

(** [int(x)] *)
Definition py_int (x : float) : result Z :=
  match Prim2SF x with
  | S754_zero _ => Ok 0
  | S754_finite s m e => Ok (SF_trunc s m e)
  | S754_infinity _ => Raise OverflowError
  | S754_nan => Raise ValueError
  end.

(** [math.floor]: the largest integer not above the exact value; it is what
    the specification of the share count is phrased with. *)
Definition SF_floor (s : bool) (m : positive) (e : Z) : Z :=
  if 0 <=? e then (if s then - (Z.pos m * 2 ^ e) else Z.pos m * 2 ^ e)
  else (if s then Z.neg m else Z.pos m) / 2 ^ (- e).

Definition py_floor (x : float) : result Z :=
  match Prim2SF x with
  | S754_zero _ => Ok 0
  | S754_finite s m e => Ok (SF_floor s m e)
  | S754_infinity _ => Raise OverflowError
  | S754_nan => Raise ValueError
  end.

(** [a / b] *)
Definition truediv (a b : float) : result float :=
  if (b =? 0)%float then Raise ZeroDivisionError else Ok (a / b)%float.

(** [n / d] to the nearest integer, ties to the even one ([0 < d]). *)
Definition div_half_even (n d : Z) : Z :=
  let q := n / d in
  let r := n mod d in
  match 2 * r ?= d with
  | Lt => q
  | Gt => q + 1
  | Eq => if Z.even q then q else q + 1
  end.

(** [round(x, 2)]: the decimal with two places nearest to the exact value of
    [x] (ties to even), read back as the nearest float; infinities and NaN
    round to themselves. *)
Definition round2 (x : float) : float :=
  match Prim2SF x with
  | S754_finite s m e =>
      let cents :=
        if 0 <=? e then Z.pos m * 2 ^ e * 100
        else div_half_even (Z.pos m * 100) (2 ^ (- e)) in
      match cents with
      | Z.pos c =>
          SF2Prim (SFdiv prec emax (S754_finite s c 0) (S754_finite false 100 0))
      | _ => SF2Prim (S754_zero s)
      end
  | _ => x
  end.



(** A number as [get_position] returns it: the literal [0] or a float. *)
Inductive number :=
| Int (z : Z)
| Float (f : float).

Definition number_abs (n : number) : number :=
  match n with
  | Int z => Int (Z.abs z)
  | Float f => Float (abs f)
  end.

(** [n * f] with [f] a float. *)
Definition number_mul (n : number) (f : float) : result float :=
  match n with
  | Int z => g ← float_of_int z; Ok (g * f)%float
  | Float g => Ok (g * f)%float
  end.

(** ** Dates *)

Record date := Date { year : Z; month : Z; day : Z }.

#[global] Instance date_eq_dec : EqDecision date.
Proof. solve_decision. Defined.

Definition is_leap (y : Z) : bool :=
  (y mod 4 =? 0) && (negb (y mod 100 =? 0) || (y mod 400 =? 0)).

Definition days_in_month (y m : Z) : Z :=
  match m with
  | 2 => if is_leap y then 29 else 28
  | 4 | 6 | 9 | 11 => 30
  | _ => 31
  end.

Definition days_before_month (y m : Z) : Z :=
  match m with
  | 1 => 0 | 2 => 31 | 3 => 59 | 4 => 90 | 5 => 120 | 6 => 151
  | 7 => 181 | 8 => 212 | 9 => 243 | 10 => 273 | 11 => 304 | _ => 334
  end + (if (2 <? m) && is_leap y then 1 else 0).

Definition days_before_year (y : Z) : Z :=
  let p := y - 1 in p * 365 + p / 4 - p / 100 + p / 400.

(** [date.toordinal()]: 0001-01-01 is day 1. *)
Definition toordinal (d : date) : Z :=
  days_before_year (year d) + days_before_month (year d) (month d) + day d.

(** [date.weekday()]: Monday is 0. *)
Definition weekday (d : date) : Z := (toordinal d + 6) mod 7.

(** [calendar.monthrange(year, month)] *)
Definition monthrange (y m : Z) : Z * Z :=
  (weekday (Date y m 1), days_in_month y m).

(** The dates that [datetime] has: the years from [MINYEAR] = 1 to
    [MAXYEAR] = 9999. *)
Definition valid_date (d : date) : Prop :=
  1 ≤ year d ≤ 9999 ∧ 1 ≤ month d ≤ 12 ∧
  1 ≤ day d ≤ days_in_month (year d) (month d).

#[global] Instance valid_date_dec (d : date) : Decision (valid_date d).
Proof. unfold valid_date. apply _. Defined.

(** [datetime(year, month, day).date()]: a [ValueError] for what is no
    date, a year above 9999 included. *)
Definition datetime (y m d : Z) : result date :=
  if bool_decide (valid_date (Date y m d)) then Ok (Date y m d)
  else Raise ValueError.

Definition next_day (d : date) : date :=
  if day d <? days_in_month (year d) (month d) then
    Date (year d) (month d) (day d + 1)
  else if month d <? 12 then Date (year d) (month d + 1) 1
  else Date (year d + 1) 1 1.

Fixpoint days_from (n : nat) (d : date) : list date :=
  match n with
  | O => []
  | S k => d :: days_from k (next_day d)
  end.

(** Every date from [start_date] to [end_date], both included. *)
Definition date_range (start_date end_date : date) : list date :=
  days_from (Z.to_nat (toordinal end_date - toordinal start_date + 1)) start_date.

(** A trading calendar says which dates are sessions; it is the injected
    oracle that knows weekends and holidays. *)
Definition calendar := date → bool.

(** [nyse.valid_days(start_date, end_date)] of pandas_market_calendars: the
    sessions of the calendar in the closed range, in ascending order. *)
Definition valid_days (nyse : calendar) (start_date end_date : date) : list date :=
  filter (λ d, nyse d = true) (date_range start_date end_date).

(** [l[-1]] *)
Definition last_item {A} (l : list A) : result A :=
  match last l with
  | Some x => Ok x
  | None => Raise IndexError
  end.

(** ** The outside world *)

Record response := Response {
  status_code : Z;
  text : string;
  json : result pyval }.
(* [json] is what [response.json()] returns or raises. *)

Inductive log_level := SUCCESS | INFO | WARNING | DEBUG | ERROR.

(** An f-string before it is rendered: literal text and interpolated values. *)
Inductive fragment :=
| Lit (s : string)
| Val (v : pyval)
| Fixed2 (v : pyval)
| Resp (r : response)
| Exc (e : exn)
| Stamp (t : Z) (format : string).
(* [Val v] is [{v}], [Fixed2 v] is [{v:.2f}], [Exc e] is [{str(e)}],
   [Stamp t format] is [{t.strftime(format)}]. *)

Definition fstring := list fragment.

Definition NL : string := String "010"%char "".

(** [sep.join(lines)] *)
Fixpoint join (sep : fstring) (lines : list fstring) : fstring :=
  match lines with
  | [] => []
  | [line] => line
  | line :: rest => line ++ sep ++ join sep rest
  end.

Inductive smtp_call :=
| SMTP (host : string) (port : Z)
| starttls
| login (user password : string)
| sendmail (from_addr to_addr : string) (msg : fstring)
| quit.

(** What the run does that can be observed from outside. [Notified] marks an
    entry into [send_email_update]. *)
Inductive event :=
| Logged (level : log_level) (message : fstring)
| Posted (url : string) (payload : pyval) (headers : gmap string pyval)
| Got (url : string) (headers : gmap string pyval)
| Mailer (call : smtp_call)
| Notified (trade_info : pyval) (error_message : option fstring).

(** What the network answers to one call, and how long the call took. *)
Record reply := Reply {
  elapsed : Z;
  http : result response;
  smtp : result () }.

Record world := World {
  shelf : gmap string pyval;
  now : Z;
  tick : nat;
  remote : nat → reply;
  trace : list event }.
(* [shelf]: the shelve file [session_data]; [now]: the clock, in
   microseconds; [remote (tick)]: the answer to the next network call;
   [trace]: the events so far, the latest first. *)

Definition set_shelf (s : gmap string pyval) (w : world) : world :=
  World s (now w) (tick w) (remote w) (trace w).

Definition record (e : event) (w : world) : world :=
  World (shelf w) (now w) (tick w) (remote w) (e :: trace w).

Definition advance (r : reply) (w : world) : world :=
  World (shelf w) (now w + elapsed r) (S (tick w)) (remote w) (trace w).

(** Computations: state passing with exceptions. *)
Definition M (A : Type) : Type := world → result A * world.

#[global] Instance M_ret : MRet M := λ A a w, (Ok a, w).
#[global] Instance M_bind : MBind M := λ A B k m w,
  match m w with
  | (Ok a, w') => k a w'
  | (Raise e, w') => (Raise e, w')
  end.

Definition lift {A} (r : result A) : M A := λ w, (r, w).

(** [try: m  except Exception as e: handler e] *)
Definition try_except {A} (m : M A) (handler : exn → M A) : M A := λ w,
  match m w with
  | (Ok a, w') => (Ok a, w')
  | (Raise e, w') => handler e w'
  end.

Definition emit (e : event) : M () := λ w, (Ok (), record e w).

Definition logger (level : log_level) (message : fstring) : M () :=
  emit (Logged level message).

(** [db.get(key)] and [db[key] = v] on the open shelf. *)
Definition db_get (key : string) : M pyval := λ w,
  (Ok (default PNone (shelf w !! key)), w).

Definition db_set (key : string) (v : pyval) : M () := λ w,
  (Ok (), set_shelf (<[key := v]> (shelf w)) w).

Definition datetime_now : M Z := λ w, (Ok (now w), w).

Definition external (e : event) : M reply := λ w,
  let r := remote w (tick w) in (Ok r, advance r (record e w)).

Definition requests_post (url : string) (payload : pyval)
    (headers : gmap string pyval) : M response :=
  r ← external (Posted url payload headers); lift (http r).

Definition requests_get (url : string) (headers : gmap string pyval) : M response :=
  r ← external (Got url headers); lift (http r).

Definition server (call : smtp_call) : M () :=
  r ← external (Mailer call); lift (smtp r).

Definition timedelta_hours (h : Z) : Z := h * 3600 * 1000000.

(** [t < v] for a [datetime] [t]. *)
Definition datetime_lt (t : Z) (v : pyval) : result bool :=
  match v with
  | PDatetime u => Ok (t <? u)
  | _ => Raise TypeError
  end.

(** [v.get(key, fallback)] *)
Definition dict_get (v : pyval) (key : string) (fallback : pyval) : result pyval :=
  match v with
  | PDict d => Ok (default fallback (d !! key))
  | _ => Raise AttributeError
  end.

(** [f"{v:.2f}"]: numbers are formatted, a [datetime] takes the format for
    [strftime], a string refuses the code [f], the rest has no format. *)
Definition format_2f (v : pyval) : result fragment :=
  match v with
  | PInt _ | PFloat _ | PBool _ | PDatetime _ => Ok (Fixed2 v)
  | PStr _ => Raise ValueError
  | _ => Raise TypeError
  end.

Definition number_val (n : number) : pyval :=
  match n with
  | Int z => PInt z
  | Float f => PFloat f
  end.

(** ** The script *)

Inductive EnvironmentType := sandbox | production.

Definition ENVIRONMENT : EnvironmentType := sandbox.

Definition environment_str (environment : EnvironmentType) : string :=
  match environment with sandbox => "sandbox" | production => "production" end.

Definition fixed_allocation : Z := 2000.

Inductive action := BUY | SELL.

Definition action_str (a : action) : string :=
  match a with BUY => "BUY" | SELL => "SELL" end.

Record account := Account {
  USERNAME : string;
  PASSWORD : string;
  ACCOUNT_NUMBER : string }.

Record mailbox := Mailbox {
  SENDER : string;
  SENDER_PASSWORD : string;
  RECEIVER : string }.

Record config := Config {
  SESSION_SHELF_DIR : string;
  TASTY_SANDBOX_BASE_URL : string;
  TASTY_PRODUCTION_BASE_URL : string;
  TASTY_SANDBOX : account;
  TASTY_PRODUCTION : account;
  EMAIL : mailbox }.

Section Script.

(** [config.settings] is not part of the script; neither is the parser
    behind [float(str)], which answers [None] where Python raises
    [ValueError]. *)
Variable settings : config.
Variable float_of_string : string → option float.

(** [float(v)] *)
Definition py_float (v : pyval) : result float :=
  match v with
  | PFloat f => Ok f
  | PInt z => float_of_int z
  | PBool b => Ok (if b then 1 else 0)%float
  | PStr s =>
      match float_of_string s with
      | Some f => Ok f
      | None => Raise ValueError
      end
  | _ => Raise TypeError
  end.

(** *** Authentication *)

(** The second half of [get_session_token]: no usable token on the shelf,
    so a new one is requested. *)
Definition request_session_token (environment : EnvironmentType) : M pyval :=
  logger WARNING [Lit "Session token expired or invalid, generating new session token..."];;
  let '(url, login_name, password) :=
    match environment with
    | sandbox =>
        (TASTY_SANDBOX_BASE_URL settings +:+ "/sessions",
         USERNAME (TASTY_SANDBOX settings), PASSWORD (TASTY_SANDBOX settings))
    | production =>
        (TASTY_PRODUCTION_BASE_URL settings +:+ "/sessions",
         USERNAME (TASTY_PRODUCTION settings), PASSWORD (TASTY_PRODUCTION settings))
    end in
  logger INFO [Lit "Using environment:"; Val (PStr (environment_str environment));
               Lit " with base url: "; Val (PStr url)];;
  let payload := PDict {[ "login" := PStr login_name; "password" := PStr password ]} in
  logger DEBUG [Lit "Generated payload."];;
  let headers : gmap string pyval := {[ "Content-Type" := PStr "application/json" ]} in
  response ← requests_post url payload headers;
  logger INFO [Lit "Posted request: "; Resp response];;
  if status_code response =? 201 then
    logger SUCCESS [Lit "Response status code: "; Val (PInt (status_code response));
                    Lit ". Received session token."];;
    data ← lift (json response);
    new_session_token ← lift (inner ← getitem data "data"; getitem inner "session-token");
    t ← datetime_now;
    let new_token_expiry := t + timedelta_hours 24 in
    logger DEBUG [Lit "Saved new session token expiring at: ";
                  Val (PDatetime new_token_expiry); Lit "."];;
    db_set "session_token" new_session_token;;
    db_set "token_expiry" (PDatetime new_token_expiry);;
    logger SUCCESS [Lit "Stored new session token and token expiry."];;
    mret new_session_token
  else
    logger ERROR [Lit "Session token request failed with response code: ";
                  Val (PInt (status_code response)); Lit "."];;
    logger DEBUG [Val (PStr (text response))];;
    mret PNone.

Definition get_session_token (environment : EnvironmentType) : M pyval :=
  session_token ← db_get "session_token";
  token_expiry ← db_get "token_expiry";
  valid ← (if truthy session_token then
             if truthy token_expiry then
               t ← datetime_now; lift (datetime_lt t token_expiry)
             else mret false
           else mret false);
  if valid : bool then
    logger SUCCESS [Lit "Found existing session token."];;
    logger INFO [Lit "Existing session token will expire at "; Val token_expiry; Lit "."];;
    mret session_token
  else request_session_token environment.

(** *** Get Position *)

Definition base_url : string :=
  match ENVIRONMENT with
  | sandbox => TASTY_SANDBOX_BASE_URL settings
  | production => TASTY_PRODUCTION_BASE_URL settings
  end.

Definition account_number : string :=
  match ENVIRONMENT with
  | sandbox => ACCOUNT_NUMBER (TASTY_SANDBOX settings)
  | production => ACCOUNT_NUMBER (TASTY_PRODUCTION settings)
  end.

(** The loop over the items: the first one whose symbol is TQQQ. *)
Fixpoint find_tqqq (items : list pyval) : result (option pyval) :=
  match items with
  | [] => Ok None
  | position :: rest =>
      symbol ← getitem position "symbol";
      if eq_str symbol "TQQQ" then Ok (Some position) else find_tqqq rest
  end.

Definition get_position (session_token : pyval) : M (number * float * float) :=
  response ← requests_get (base_url +:+ "/accounts/" +:+ account_number +:+ "/positions")
                          {[ "Authorization" := session_token ]};
  positions ← lift (json response);
  lift (
    data ← getitem positions "data";
    items ← getitem data "items";
    items ← iterate items;
    tqqq_position ← find_tqqq items;
    match tqqq_position with
    | None => Ok (Int 0, 0%float, 0%float)
    | Some tqqq_position =>
        quantity ← getitem tqqq_position "quantity" ≫= py_float;
        direction ← getitem tqqq_position "quantity-direction";
        let quantity := if eq_str direction "Short" then (- quantity)%float else quantity in
        avg_open_price ← getitem tqqq_position "average-open-price" ≫= py_float;
        close_price ← getitem tqqq_position "close-price" ≫= py_float;
        multiplier ← getitem tqqq_position "multiplier" ≫= py_float;
        let unrealized_pnl :=
          ((close_price - avg_open_price) * abs quantity * multiplier)%float in
        let unrealized_pnl :=
          if (quantity <? 0)%float then (- unrealized_pnl)%float else unrealized_pnl in
        Ok (Float quantity, unrealized_pnl, close_price)
    end).

(** *** Rebalancer *)

(** What [rebalance] computes from the position it has read. *)
Definition rebalance_decision (quantity : number) (current_price : float)
  : result (option action * Z) :=
  current_value ← number_mul (number_abs quantity) current_price;
  let value_difference := (Z2float fixed_allocation - current_value)%float in
  quotient ← truediv (abs value_difference) current_price;
  shares_to_trade ← py_int quotient;
  if shares_to_trade =? 0 then Ok (None, 0)
  else if (0 <? value_difference)%float then Ok (Some BUY, shares_to_trade)
  else Ok (Some SELL, shares_to_trade).

Definition rebalance (session_token : pyval) : M (option action * Z) :=
  '(quantity, _, current_price) ← get_position session_token;
  lift (rebalance_decision quantity current_price).

(** *** Execute Order *)

Definition limit_price (a : action) (current_price : float) : float :=
  let price_adjustment :=
    match a with BUY => 1.005%float | SELL => 0.995%float end in
  round2 (current_price * price_adjustment)%float.

Definition order_payload (a : action) (quantity : Z) (current_price : float) : pyval :=
  let tasty_action := match a with BUY => "Buy to Open" | SELL => "Sell to Close" end in
  let price_effect := match a with BUY => "Debit" | SELL => "Credit" end in
  PDict {[
    "time-in-force" := PStr "Day";
    "order-type" := PStr "Limit";
    "price" := PFloat (limit_price a current_price);
    "price-effect" := PStr price_effect;
    "legs" := PList [ PDict {[
        "instrument-type" := PStr "Equity";
        "symbol" := PStr "TQQQ";
        "quantity" := PInt quantity;
        "action" := PStr tasty_action ]} ] ]}.

Definition execute_order (session_token : pyval) (a : action) (quantity : Z) : M pyval :=
  '(_, _, current_price) ← get_position session_token;
  response ← requests_post (base_url +:+ "/accounts/" +:+ account_number +:+ "/orders")
                           (order_payload a quantity current_price)
                           {[ "Authorization" := session_token ]};
  lift (json response).

(** *** Email Update *)

(** [error_message] is [None] or one of the non-empty messages of [main]. *)
Definition send_email_update (trade_info : pyval) (error_message : option fstring) : M () :=
  emit (Notified trade_info error_message);;
  try_except
    (server (SMTP "smtp.gmail.com" 587);;
     server starttls;;
     server (login (SENDER (EMAIL settings)) (SENDER_PASSWORD (EMAIL settings)));;
     session_token ← get_session_token ENVIRONMENT;
     '(quantity, unrealized_pnl, current_price) ← get_position session_token;
     current_value ← lift (number_mul (number_abs quantity) current_price);
     let subject :=
       Lit "TQQQ Rebalancing Update" ::
       (if error_message is Some _ then [Lit " - ERROR"] else []) in
     t ← datetime_now;
     let body : list fstring :=
       [ [Lit "TQQQ Position Update - "; Stamp t "%Y-%m-%d %H:%M:%S EST"; Lit NL];
         [Lit "Current Position:"];
         [Lit "  Shares: "; Val (number_val quantity)];
         [Lit "  Price: $"; Fixed2 (PFloat current_price)];
         [Lit "  Position Value: $"; Fixed2 (PFloat current_value)];
         [Lit "  Unrealized P&L: $"; Fixed2 (PFloat unrealized_pnl)];
         [Lit "  Target Allocation: $"; Fixed2 (PInt fixed_allocation)];
         [Lit "  Difference from Target: $";
          Fixed2 (PFloat (current_value - Z2float fixed_allocation))] ] in
     trade_lines ← lift (
       if truthy trade_info then
         a ← getitem trade_info "action";
         shares ← getitem trade_info "shares";
         price ← getitem trade_info "limit_price" ≫= format_2f;
         Ok [ [Lit NL; Lit "Trade Executed:"];
              [Lit "  Action: "; Val a];
              [Lit "  Shares: "; Val shares];
              [Lit "  Limit Price: $"; price] ]
       else Ok []);
     let error_lines : list fstring :=
       match error_message with
       | Some message => [ [Lit NL; Lit "ERROR:"]; Lit "  " :: message ]
       | None => []
       end in
     let body := body ++ trade_lines ++ error_lines ++
                 [ [Lit NL; Lit "Environment: "; Val (PStr (environment_str ENVIRONMENT))] ] in
     let email_text : fstring :=
       [Lit "Subject: "] ++ subject ++ [Lit NL; Lit NL] ++
       join [Lit NL] body in
     server (sendmail (SENDER (EMAIL settings)) (RECEIVER (EMAIL settings)) email_text);;
     server quit;;
     logger INFO [Lit "Email update sent successfully"])
    (λ e, logger ERROR [Lit "Failed to send email update: "; Exc e]).

(** *** Main *)

(** The result says whether the body ran to its end ([true]) or left through
    one of its [return]s ([false]). *)
Definition main_body : M bool :=
  try_except
    (session_token ← get_session_token ENVIRONMENT;
     if negb (truthy session_token) then
       let error_msg := [Lit "Failed to get session token"] in
       logger ERROR error_msg;;
       send_email_update PNone (Some error_msg);;
       mret false
     else
       '(action, shares_to_trade) ← rebalance session_token;
       match action with
       | None =>
           logger INFO [Lit "No rebalancing needed"];;
           send_email_update PNone None;;
           mret false
       | Some a =>
           logger INFO [Lit "Executing "; Val (PStr (action_str a)); Lit " order for ";
                        Val (PInt shares_to_trade); Lit " shares of TQQQ"];;
           try_except
             (order_response ← execute_order session_token a shares_to_trade;
              price ← lift (dict_get order_response "price" (PFloat 0));
              let trade_info := PDict {[
                "action" := PStr (action_str a);
                "shares" := PInt shares_to_trade;
                "limit_price" := price ]} in
              logger INFO [Lit "Order submitted successfully: "; Val order_response];;
              send_email_update trade_info None;;
              mret true)
             (λ e,
              let error_msg := [Lit "Error executing order: "; Exc e] in
              logger ERROR error_msg;;
              send_email_update PNone (Some error_msg);;
              mret false)
       end)
    (λ e,
     let error_msg := [Lit "Unexpected error in rebalancing process: "; Exc e] in
     logger ERROR error_msg;;
     send_email_update PNone (Some error_msg);;
     mret false).

Definition main : M () :=
  logger INFO [Lit "Starting TQQQ rebalancing process..."];;
  finished ← main_body;
  if finished : bool then logger INFO [Lit "TQQQ rebalancing completed"] else mret ().

(** *** The schedule gate *)

(** [today] stands for [datetime.now().date()]. *)
Definition is_last_trading_day (nyse : calendar) (today : date) : result bool :=
  let '(_, last_day) := monthrange (year today) (month today) in
  month_end ← datetime (year today) (month today) last_day;
  next_month ←
    (if month today =? 12 then datetime (year today + 1) 1 1
     else datetime (year today) (month today + 1) 1);
  let trading_days := valid_days nyse today next_month in
  if bool_decide (today ∈ trading_days) then
    final ← last_item trading_days;
    Ok (bool_decide (today = final))
  else Ok false.

Definition scheduled_job (nyse : calendar) (today : date) : M () :=
  due ← lift (is_last_trading_day nyse today);
  if due : bool then
    logger INFO [Lit "Today is the last trading day of the month. Running rebalancing..."];;
    main
  else
    logger INFO [Lit "Not the last trading day of the month. Skipping rebalancing."].

End Script.

(** ** Observations on a run *)

Definition is_request (e : event) : bool :=
  match e with
  | Posted _ _ _ | Got _ _ => true
  | _ => false
  end.

(** How many HTTP requests a world has seen. *)
Definition requests_made (w : world) : nat :=
  length (List.filter is_request (trace w)).

Definition is_notification (e : event) : bool :=
  match e with
  | Notified _ _ => true
  | _ => false
  end.

(** How many times [send_email_update] has been entered. *)
Definition notifications (w : world) : nat :=
  length (List.filter is_notification (trace w)).

(** The shelf holds no token that is still valid at the time of the world:
    the token is missing or empty, or the expiry is missing, or it is a
    time that has been reached. *)
Inductive no_valid_token (w : world) : Prop :=
| token_missing :
    truthy (default PNone (shelf w !! "session_token")) = false →
    no_valid_token w
| expiry_missing :
    truthy (default PNone (shelf w !! "token_expiry")) = false →
    no_valid_token w
| token_expired expiry :
    shelf w !! "token_expiry" = Some (PDatetime expiry) →
    expiry ≤ now w →
    no_valid_token w.

(** The day after the last day of the month of [d]. *)
Definition first_of_next_month (d : date) : date :=
  next_day (Date (year d) (month d) (days_in_month (year d) (month d))).

(** The days of the month of [d], from [d] on. *)
Definition rest_of_month (d : date) : list date :=
  Date (year d) (month d) <$>
    seqZ (day d) (days_in_month (year d) (month d) - day d + 1).

(** The last session of a month, if it has one. *)
Definition last_trading_day_of_month (nyse : calendar) (y m : Z) : option date :=
  last (filter (λ d, nyse d = true) (rest_of_month (Date y m 1))).


(** An entry of the holdings list for another instrument. *)
Definition other_instrument (position : pyval) : Prop :=
  ∃ symbol, getitem position "symbol" = Ok symbol ∧ eq_str symbol "TQQQ" = false.

Definition positions_url (settings : config) : string :=
  base_url settings +:+ "/accounts/" +:+ account_number settings +:+ "/positions".

Definition orders_url (settings : config) : string :=
  base_url settings +:+ "/accounts/" +:+ account_number settings +:+ "/orders".

(** The world after the request for a session token has been posted and
    answered by [r]. *)
Definition after_login (settings : config) (environment : EnvironmentType)
    (w : world) (r : reply) (resp : response) : world :=
  let url := match environment with
             | sandbox => TASTY_SANDBOX_BASE_URL settings +:+ "/sessions"
             | production => TASTY_PRODUCTION_BASE_URL settings +:+ "/sessions"
             end in
  let account := match environment with
                 | sandbox => TASTY_SANDBOX settings
                 | production => TASTY_PRODUCTION settings
                 end in
  record (Logged INFO [Lit "Posted request: "; Resp resp])
    (advance r
      (record (Posted url
                 (PDict {[ "login" := PStr (USERNAME account);
                           "password" := PStr (PASSWORD account) ]})
                 {[ "Content-Type" := PStr "application/json" ]})
        (record (Logged DEBUG [Lit "Generated payload."])
          (record (Logged INFO [Lit "Using environment:";
                                Val (PStr (environment_str environment));
                                Lit " with base url: "; Val (PStr url)])
            (record (Logged WARNING
                       [Lit "Session token expired or invalid, generating new session token..."])
               w))))).

(** [quiet m]: running [m] never enters [send_email_update], whether it
    returns or raises. *)
Definition quiet {A} (m : M A) : Prop :=
  ∀ w, notifications (m w).2 = notifications w.

(** [fires m]: [m] returns normally and enters [send_email_update] once. *)
Definition fires {A} (m : M A) : Prop :=
  ∀ w, (∃ a, (m w).1 = Ok a) ∧ notifications (m w).2 = S (notifications w).

(** [guarded m]: [m] enters [send_email_update] once if it returns, and not
    at all if it raises. *)
Definition guarded {A} (m : M A) : Prop :=
  ∀ w, match (m w).1 with
       | Ok _ => notifications (m w).2 = S (notifications w)
       | Raise _ => notifications (m w).2 = notifications w
       end.

(** [calm m]: [m] is quiet and returns normally. *)
Definition calm {A} (m : M A) : Prop :=
  ∀ w, (∃ a, (m w).1 = Ok a) ∧ notifications (m w).2 = notifications w.

(** ** Sample data *)

Definition sample_settings : config :=
  Config "/var/tqqq" "https://api.cert.example" "https://api.example"
    (Account "paper" "secret" "5WT00001") (Account "live" "secret" "5WX00002")
    (Mailbox "bot@example.org" "secret" "me@example.org").

(** A parser that knows no string: every [float(str)] raises. *)
Definition no_float_of_string (s : string) : option float := None.

Definition answer (status : Z) (body : string) (data : result pyval) : reply :=
  Reply 250000 (Ok (Response status body data)) (Ok ()).

Definition session_created : reply :=
  answer 201 "{...}" (Ok (PDict {[ "data" := PDict {[ "session-token" := PStr "t0k3n" ]} ]})).

Definition session_refused : reply :=
  answer 401 "invalid credentials" (Raise (ExternalError "JSONDecodeError")).

Definition server_broken : reply :=
  answer 500 "internal error" (Raise (ExternalError "JSONDecodeError")).

Definition holdings (items : list pyval) : reply :=
  answer 200 "{...}" (Ok (PDict {[ "data" := PDict {[ "items" := PList items ]} ]})).

Definition spy_position : pyval :=
  PDict {[ "symbol" := PStr "SPY"; "quantity" := PStr "3";
           "quantity-direction" := PStr "Long" ]}.

Definition tqqq_position : pyval :=
  PDict {[ "symbol" := PStr "TQQQ"; "quantity" := PFloat 10;
           "quantity-direction" := PStr "Long";
           "average-open-price" := PFloat 50; "close-price" := PFloat 60;
           "multiplier" := PInt 1 ]}.

(** Ten shares at 199.50: 1995 dollars, less than one share away from the
    allocation. *)
Definition balanced_position : pyval :=
  PDict {[ "symbol" := PStr "TQQQ"; "quantity" := PFloat 10;
           "quantity-direction" := PStr "Long";
           "average-open-price" := PFloat 50; "close-price" := PFloat 199.5;
           "multiplier" := PInt 1 ]}.

Definition order_received : reply :=
  answer 201 "{...}" (Ok (PDict {[ "price" := PFloat 60.3 ]})).

(** A world with an empty shelf whose network gives the answers of [script]
    in turn, and fails afterwards. *)
Definition scripted_world (script : list reply) : world :=
  World ∅ 0 0
    (λ n, default (Reply 0 (Raise (ExternalError "ConnectionError"))
                           (Raise (ExternalError "SMTPServerDisconnected")))
                  (script !! n))
    [].

(** A world with an empty shelf at time [t] whose network answers [r] to
    every call. *)
Definition fresh_world (t : Z) (r : reply) : world :=
  World ∅ t 0 (λ _, r) [].

(** A world whose shelf holds [token] until [expiry]. *)
Definition cached_world (token : string) (expiry t : Z) (r : reply) : world :=
  World {[ "session_token" := PStr token; "token_expiry" := PDatetime expiry ]}
        t 0 (λ _, r) [].

(** Monday to Friday, no holidays. *)
Definition weekdays : calendar := λ d, weekday d <? 5.

(** Weekdays, with Friday 30 August 2024 a holiday. *)
Definition friday_closed : calendar :=
  λ d, weekdays d && negb (bool_decide (d = Date 2024 8 30)).

(** ** What a run is watched for *)

Definition seen (P : event → bool) (w : world) : list event :=
  List.filter P (trace w).

Definition silent (P : event → bool) {A} (m : M A) : Prop :=
  ∀ w, seen P (m w).2 = seen P w.

Definition is_order (e : event) : bool :=
  match e with
  | Posted _ (PDict d) _ => bool_decide (is_Some (d !! "legs"))
  | _ => false
  end.

(** The shelf after a token and its expiry have been stored. *)
Definition stored (token : pyval) (expiry : Z) (s : gmap string pyval) : gmap string pyval :=
  <["token_expiry" := PDatetime expiry]> (<["session_token" := token]> s).

(** The two kinds of event that the run is watched for. *)
Definition watched (P : event → bool) : Prop :=
  P = is_notification ∨ P = is_order.

(** [sparing P m]: running [m] adds at most one event that [P] picks. *)
Definition sparing (P : event → bool) {A} (m : M A) : Prop :=
  ∀ w, (length (seen P (m w).2) ≤ S (length (seen P w)))%nat.

(** The world in which the body of [main] starts. *)
Definition started (w : world) : world :=
  record (Logged INFO [Lit "Starting TQQQ rebalancing process..."]) w.

(** The world in which [execute_order] starts, after [main] has logged the
    decision. *)
Definition announced (a : action) (shares : Z) (w : world) : world :=
  record (Logged INFO [Lit "Executing "; Val (PStr (action_str a)); Lit " order for ";
                       Val (PInt shares); Lit " shares of TQQQ"]) w.

(** [float(p[key])] is [x]. *)
Definition reads_as (float_of_string : string → option float)
    (p : pyval) (key : string) (x : float) : Prop :=
  ∃ v, getitem p key = Ok v ∧ py_float float_of_string v = Ok x.

(** A holdings entry for TQQQ with every field the script reads. *)
Definition tqqq_entry (float_of_string : string → option float)
    (p : pyval) (quantity : float) (direction : pyval)
    (avg_open_price close_price multiplier : float) : Prop :=
  (∃ symbol, getitem p "symbol" = Ok symbol ∧ eq_str symbol "TQQQ" = true) ∧
  reads_as float_of_string p "quantity" quantity ∧
  getitem p "quantity-direction" = Ok direction ∧
  reads_as float_of_string p "average-open-price" avg_open_price ∧
  reads_as float_of_string p "close-price" close_price ∧
  reads_as float_of_string p "multiplier" multiplier.

(** The answer of the positions endpoint is a holdings list [items]. *)
Definition answers_holdings (w : world) (items : list pyval) : Prop :=
  ∃ resp positions data,
    http (remote w (tick w)) = Ok resp ∧
    json resp = Ok positions ∧
    getitem positions "data" = Ok data ∧
    getitem data "items" = Ok (PList items).

(** The world after the positions have been fetched. *)
Definition after_positions (settings : config) (session_token : pyval) (w : world) : world :=
  advance (remote w (tick w))
    (record (Got (positions_url settings) {[ "Authorization" := session_token ]}) w).

(** The ways a request for a session token breaks with [e]: the transport
    raises, or the answer is a 201 whose body is no JSON or lacks the
    token. *)
Inductive login_breaks (w : world) (e : exn) : Prop :=
| transport_fails :
    http (remote w (tick w)) = Raise e →
    login_breaks w e
| body_unreadable resp :
    http (remote w (tick w)) = Ok resp →
    status_code resp = 201 →
    json resp = Raise e →
    login_breaks w e
| data_missing resp body :
    http (remote w (tick w)) = Ok resp →
    status_code resp = 201 →
    json resp = Ok body →
    getitem body "data" = Raise e →
    login_breaks w e
| token_missing_in_data resp body data :
    http (remote w (tick w)) = Ok resp →
    status_code resp = 201 →
    json resp = Ok body →
    getitem body "data" = Ok data →
    getitem data "session-token" = Raise e →
    login_breaks w e.

Definition created_without_token : reply :=
  answer 201 "{...}" (Ok (PDict {[ "data" := PDict ∅ ]})).

(** Ten shares sold short at 50, now at 60. *)
Definition short_position : pyval :=
  PDict {[ "symbol" := PStr "TQQQ"; "quantity" := PFloat 10;
           "quantity-direction" := PStr "Short";
           "average-open-price" := PFloat 50; "close-price" := PFloat 60;
           "multiplier" := PInt 1 ]}.

(** An entry that has lost its symbol. *)
Definition nameless_position : pyval :=
  PDict {[ "quantity" := PFloat 1; "quantity-direction" := PStr "Long" ]}.

(** ** Float facts *)

Lemma Prim2SF_zero : Prim2SF 0 = S754_zero false.
Proof. reflexivity. Qed.

(** A float above zero is a positive finite number or plus infinity. *)
Lemma positive_float (p : float) :
  (0 <? p)%float = true →
  (∃ m e, Prim2SF p = S754_finite false m e) ∨ Prim2SF p = S754_infinity false.
Proof.
  rewrite FloatAxioms.ltb_spec, Prim2SF_zero.
  destruct (Prim2SF p) as [s|[|]| |[|] m e]; simpl; try discriminate; eauto.
Qed.

Lemma positive_float_nonzero (p : float) :
  (0 <? p)%float = true → (p =? 0)%float = false.
Proof.
  intros H. rewrite FloatAxioms.eqb_spec, Prim2SF_zero.
  destruct (positive_float p H) as [(m & e & ->)| ->]; reflexivity.
Qed.

Lemma binary_round_aux_sign (sx : bool) (mx ex : Z) (lx : location) :
  match binary_round_aux prec emax sx mx ex lx with
  | S754_zero s | S754_infinity s | S754_finite s _ _ => s = sx
  | S754_nan => True
  end.
Proof.
  unfold binary_round_aux.
  destruct (shr_fexp prec emax mx ex lx) as [mrs' e'].
  destruct (shr_fexp prec emax _ e' loc_Exact) as [mrs'' e''].
  destruct (shr_m mrs''); [reflexivity| |exact I].
  destruct (e'' <=? emax - prec); reflexivity.
Qed.

(** The quotient of an absolute value by a positive float: never negative,
    and a non-zero finite quotient comes from a non-zero finite dividend. *)
Lemma quotient_cases (d p : float) :
  (0 <? p)%float = true →
  match Prim2SF (abs d / p) with
  | S754_zero s => s = false
  | S754_finite s _ _ => s = false ∧ ∃ sd md ed, Prim2SF d = S754_finite sd md ed
  | _ => True
  end.
Proof.
  intros Hp. rewrite div_spec, abs_spec.
  destruct (positive_float p Hp) as [(m & e & ->)| ->];
    destruct (Prim2SF d) as [sd|sd| |sd md ed]; simpl; try done.
  destruct (SFdiv_core_binary prec emax (Z.pos md) ed (Z.pos m) e) as [[mz ez] lz].
  pose proof (binary_round_aux_sign false mz ez lz) as Hs.
  destruct (binary_round_aux prec emax false mz ez lz); eauto 6.
Qed.

Lemma finite_sign (d : float) (sd : bool) (md : positive) (ed : Z) :
  Prim2SF d = S754_finite sd md ed →
  (0 <? d)%float = negb sd ∧ (d <? 0)%float = sd.
Proof.
  intros H. rewrite !FloatAxioms.ltb_spec, Prim2SF_zero, H. destruct sd; split; reflexivity.
Qed.

Lemma SF_floor_nonneg (m : positive) (e : Z) : 0 ≤ SF_floor false m e.
Proof.
  unfold SF_floor. destruct (0 <=? e) eqn:He.
  - apply Z.mul_nonneg_nonneg; [lia|]. apply Z.pow_nonneg. lia.
  - apply Z.div_pos; [lia|]. apply Z.pow_pos_nonneg; lia.
Qed.

Lemma SF_trunc_floor (m : positive) (e : Z) : SF_trunc false m e = SF_floor false m e.
Proof. unfold SF_trunc, SF_floor. destruct (0 <=? e); reflexivity. Qed.

(** The floor is what its name says: the exact value lies between it and
    its successor. *)
Lemma SF_floor_spec (s : bool) (m : positive) (e : Z) :
  let n := SF_floor s m e in
  let v := if s then Z.neg m else Z.pos m in
  if 0 <=? e then n = v * 2 ^ e
  else n * 2 ^ (- e) ≤ v < (n + 1) * 2 ^ (- e).
Proof.
  unfold SF_floor. destruct (0 <=? e) eqn:He; simpl.
  - destruct s; lia.
  - assert (0 < 2 ^ (- e)) by (apply Z.pow_pos_nonneg; lia).
    destruct s; Z.div_mod_to_equations; nia.
Qed.





(** ** The schedule gate *)

Lemma days_before_year_succ (y : Z) :
  days_before_year (y + 1) = days_before_year y + (if is_leap y then 366 else 365).
Proof.
  unfold days_before_year, is_leap.
  replace (y + 1 - 1) with y by lia.
  destruct (y mod 4 =? 0) eqn:H4, (y mod 100 =? 0) eqn:H100, (y mod 400 =? 0) eqn:H400;
    simpl; Z.div_mod_to_equations; lia.
Qed.

Lemma month_lengths (y m : Z) :
  1 ≤ m < 12 →
  days_before_month y (m + 1) = days_before_month y m + days_in_month y m.
Proof.
  intros Hm.
  assert (m = 1 ∨ m = 2 ∨ m = 3 ∨ m = 4 ∨ m = 5 ∨ m = 6 ∨ m = 7 ∨ m = 8 ∨
          m = 9 ∨ m = 10 ∨ m = 11) as Hcases by lia.
  unfold days_before_month, days_in_month.
  destruct (is_leap y);
    repeat (destruct Hcases as [->|Hcases]; [reflexivity|]); subst m; reflexivity.
Qed.

Lemma toordinal_next_day (d : date) :
  1 ≤ month d ≤ 12 → day d ≤ days_in_month (year d) (month d) →
  toordinal (next_day d) = toordinal d + 1.
Proof.
  intros Hm Hd. destruct d as [y m dd]. unfold next_day, toordinal. simpl in *.
  destruct (dd <? days_in_month y m) eqn:Hlt; simpl; [lia|].
  assert (dd = days_in_month y m) as -> by lia.
  destruct (m <? 12) eqn:Hm12; simpl.
  - rewrite month_lengths by lia. lia.
  - assert (m = 12) as -> by lia.
    rewrite days_before_year_succ. unfold days_before_month, days_in_month. simpl.
    destruct (is_leap y); lia.
Qed.

Lemma days_from_month (y m : Z) (k : nat) (d : Z) :
  d + Z.of_nat k = days_in_month y m →
  days_from (S (S k)) (Date y m d) =
    (Date y m <$> seqZ d (Z.of_nat k + 1)) ++ [first_of_next_month (Date y m d)].
Proof.
  revert d. induction k as [|k IH]; intros d Hd.
  - simpl in *. assert (d = days_in_month y m) as -> by lia. reflexivity.
  - change (days_from (S (S (S k))) (Date y m d))
      with (Date y m d :: days_from (S (S k)) (next_day (Date y m d))).
    assert (next_day (Date y m d) = Date y m (d + 1)) as ->.
    { unfold next_day. simpl. assert ((d <? days_in_month y m) = true) as -> by lia.
      reflexivity. }
    rewrite IH by lia.
    rewrite (seqZ_cons d) by lia.
    replace (Z.pred (Z.of_nat (S k) + 1)) with (Z.of_nat k + 1) by lia.
    reflexivity.
Qed.

Lemma date_range_month (today : date) :
  valid_date today →
  date_range today (first_of_next_month today) =
    rest_of_month today ++ [first_of_next_month today].
Proof.
  intros (Hy & Hm & Hd). destruct today as [y m d]. simpl in *.
  unfold date_range, rest_of_month. simpl.
  assert (toordinal (first_of_next_month (Date y m d)) - toordinal (Date y m d) + 1
          = Z.of_nat (S (S (Z.to_nat (days_in_month y m - d))))) as ->.
  { unfold first_of_next_month. rewrite toordinal_next_day; simpl; [|lia|lia].
    unfold toordinal. simpl. lia. }
  rewrite Nat2Z.id, days_from_month by lia.
  replace (Z.of_nat (Z.to_nat (days_in_month y m - d)) + 1)
    with (days_in_month y m - d + 1) by lia.
  reflexivity.
Qed.

Lemma days_in_month_bounds (y m : Z) : 28 ≤ days_in_month y m ≤ 31.
Proof. unfold days_in_month. repeat case_match; lia. Qed.

(** The first day of the next month is a date on every day but those of
    December 9999. *)
Lemma next_month_in_range (today : date) :
  valid_date today →
  valid_date (first_of_next_month today) ↔ ¬ (year today = 9999 ∧ month today = 12).
Proof.
  intros (Hy & Hm & Hd). destruct today as [y m d]. simpl in *.
  unfold first_of_next_month, next_day. simpl. rewrite Z.ltb_irrefl.
  destruct (m <? 12) eqn:H12; unfold valid_date; simpl.
  - pose proof (days_in_month_bounds y (m + 1)). lia.
  - lia.
Qed.

Lemma month_end_in_range (today : date) :
  valid_date today →
  datetime (year today) (month today) (days_in_month (year today) (month today)) =
    Ok (Date (year today) (month today) (days_in_month (year today) (month today))).
Proof.
  intros (Hy & Hm & Hd). unfold datetime. rewrite bool_decide_eq_true_2; [reflexivity|].
  pose proof (days_in_month_bounds (year today) (month today)).
  unfold valid_date. simpl. lia.
Qed.

Lemma next_month_eq (today : date) :
  valid_date today →
  (if month today =? 12 then datetime (year today + 1) 1 1
   else datetime (year today) (month today + 1) 1) =
  if bool_decide (year today = 9999 ∧ month today = 12) then Raise ValueError
  else Ok (first_of_next_month today).
Proof.
  intros (Hy & Hm & Hd).
  unfold first_of_next_month, next_day, datetime. simpl.
  rewrite Z.ltb_irrefl.
  destruct (month today =? 12) eqn:H12.
  - assert ((month today <? 12) = false) as -> by lia.
    case_bool_decide as Hdec; unfold valid_date in Hdec; simpl in Hdec.
    + rewrite bool_decide_eq_false_2; [reflexivity|lia].
    + rewrite bool_decide_eq_true_2; [reflexivity|lia].
  - assert ((month today <? 12) = true) as -> by lia.
    rewrite (bool_decide_eq_false_2 (_ ∧ _)) by lia.
    rewrite bool_decide_eq_true_2; [reflexivity|].
    pose proof (days_in_month_bounds (year today) (month today + 1)).
    unfold valid_date. simpl. lia.
Qed.

Lemma rest_of_month_head (today : date) :
  valid_date today →
  ∃ later, rest_of_month today = today :: later.
Proof.
  intros (Hy & Hm & Hd). destruct today as [y m d]. simpl in *.
  unfold rest_of_month. simpl. rewrite seqZ_cons by lia. eexists. reflexivity.
Qed.

Lemma today_in_valid_days (nyse : calendar) (today : date) :
  valid_date today →
  today ∈ valid_days nyse today (first_of_next_month today) ↔ nyse today = true.
Proof.
  intros Hv. unfold valid_days. rewrite list_elem_of_filter, date_range_month by done.
  destruct (rest_of_month_head today Hv) as [later ->].
  split; [tauto|]. intros H. split; [exact H|]. simpl. left.
Qed.

(** In December 9999 the first day of the next month is out of the range of
    [datetime], and the gate ends in its [ValueError]. *)
Lemma is_last_trading_day_december_9999 (nyse : calendar) (today : date) :
  valid_date today →
  year today = 9999 ∧ month today = 12 →
  is_last_trading_day nyse today = Raise ValueError.
Proof.
  intros Hv Hlast. unfold is_last_trading_day, monthrange.
  rewrite month_end_in_range by done. simpl.
  rewrite next_month_eq, bool_decide_eq_true_2 by done. reflexivity.
Qed.

Lemma is_last_trading_day_unfold (nyse : calendar) (today : date) :
  valid_date today →
  ¬ (year today = 9999 ∧ month today = 12) →
  is_last_trading_day nyse today =
    let trading_days := valid_days nyse today (first_of_next_month today) in
    if bool_decide (today ∈ trading_days) then
      final ← last_item trading_days; Ok (bool_decide (today = final))
    else Ok false.
Proof.
  intros Hv Hnext. unfold is_last_trading_day, monthrange.
  rewrite month_end_in_range by done. simpl.
  rewrite next_month_eq, bool_decide_eq_false_2 by done. reflexivity.
Qed.

(** The value of the gate: the [and] of the script never reaches the last
    element of an empty list. *)
Lemma is_last_trading_day_value (nyse : calendar) (today : date) :
  valid_date today →
  ¬ (year today = 9999 ∧ month today = 12) →
  let trading_days := valid_days nyse today (first_of_next_month today) in
  is_last_trading_day nyse today =
    Ok (bool_decide (today ∈ trading_days ∧ last trading_days = Some today)).
Proof.
  intros Hv Hnext trading_days. rewrite is_last_trading_day_unfold by done. cbv zeta.
  fold trading_days. case_bool_decide as Hmem.
  - unfold last_item. destruct (last trading_days) as [final|] eqn:Hlast.
    + simpl. f_equal. apply bool_decide_ext. split.
      * intros ->. done.
      * intros [_ [= ->]]. done.
    + apply last_None in Hlast. rewrite Hlast in Hmem. inversion Hmem.
  - f_equal. symmetry. apply bool_decide_eq_false. tauto.
Qed.

(** C3, amended: for a date [today] before December 9999 and any calendar,
    the gate returns (it never fails on the empty list), and it returns true
    exactly when [today] is a session of the calendar and is the last
    element of the sessions from [today] up to and including the first day
    of the next month.  On a day of December 9999 that first day is beyond
    the last year of [datetime], and the gate raises [ValueError]. *)
Theorem gate_iff_last_of_valid_days (nyse : calendar) (today : date) :
  valid_date today →
  (¬ (year today = 9999 ∧ month today = 12) →
   (∃ b, is_last_trading_day nyse today = Ok b) ∧
   (is_last_trading_day nyse today = Ok true ↔
      nyse today = true ∧
      last (valid_days nyse today (first_of_next_month today)) = Some today)) ∧
  (year today = 9999 ∧ month today = 12 →
   is_last_trading_day nyse today = Raise ValueError).
Proof.
  intros Hv. split.
  - intros Hnext. rewrite is_last_trading_day_value by done. cbv zeta.
    split; [eexists; reflexivity|].
    rewrite <- (today_in_valid_days nyse today Hv).
    split.
    + intros [= H]. apply bool_decide_eq_true in H. exact H.
    + intros H. f_equal. apply bool_decide_eq_true. exact H.
  - intros Hlast. apply is_last_trading_day_december_9999; done.
Qed.

(** The claim as it was written fails on the last day of the year 9999, a
    Friday: it is a session and the last of the sessions up to the day
    after, and the gate returns nothing. *)
Lemma gate_raises_in_december_9999 :
  valid_date (Date 9999 12 31) ∧
  weekdays (Date 9999 12 31) = true ∧
  last (valid_days weekdays (Date 9999 12 31) (first_of_next_month (Date 9999 12 31)))
    = Some (Date 9999 12 31) ∧
  is_last_trading_day weekdays (Date 9999 12 31) = Raise ValueError.
Proof.
  split; [unfold valid_date; simpl; lia|]. repeat split; vm_compute; reflexivity.
Qed.

Lemma today_before_next_month (today : date) :
  valid_date today → today ≠ first_of_next_month today.
Proof.
  intros (Hy & Hm & Hd) Heq. destruct today as [y m d]. simpl in *.
  unfold first_of_next_month, next_day in Heq. simpl in Heq.
  rewrite Z.ltb_irrefl in Heq.
  destruct (m <? 12) eqn:H12; injection Heq; lia.
Qed.

(** C2 fails on the script: the range handed to [valid_days] ends on the
    first day of the next month, not on [month_end]; when that day is a
    session it is the last element, so the gate is false on every day of the
    month, the month's last session included.  (In December 9999 there is
    no such day for [datetime], and the gate does not return at all.) *)
Theorem gate_closed_when_next_month_opens (nyse : calendar) (today : date) :
  valid_date today →
  nyse (first_of_next_month today) = true →
  is_last_trading_day nyse today =
    if bool_decide (year today = 9999 ∧ month today = 12) then Raise ValueError
    else Ok false.
Proof.
  intros Hv Hnext. case_bool_decide as Hlast.
  { apply is_last_trading_day_december_9999; done. }
  rewrite is_last_trading_day_unfold by done. cbv zeta.
  unfold valid_days. rewrite date_range_month, filter_app by done.
  rewrite (filter_cons_True _ (first_of_next_month today)) by done.
  rewrite filter_nil.
  case_bool_decide as Hmem; [|reflexivity].
  unfold last_item. rewrite last_snoc. simpl.
  rewrite bool_decide_eq_false_2; [reflexivity|].
  apply today_before_next_month, Hv.
Qed.

Lemma gate_closed_january_2024 :
  weekdays (Date 2024 2 1) = true ∧
  last_trading_day_of_month weekdays 2024 1 = Some (Date 2024 1 31) ∧
  is_last_trading_day weekdays (Date 2024 1 31) = Ok false.
Proof.
  split; [reflexivity|]. split; [reflexivity|].
  apply (gate_closed_when_next_month_opens weekdays (Date 2024 1 31)).
  - unfold valid_date. simpl. lia.
  - reflexivity.
Defined.

Lemma gate_iff_sample :
  is_last_trading_day weekdays (Date 2024 5 31) = Ok true ↔
    weekdays (Date 2024 5 31) = true ∧
    last (valid_days weekdays (Date 2024 5 31) (first_of_next_month (Date 2024 5 31)))
      = Some (Date 2024 5 31).
Proof.
  apply (gate_iff_last_of_valid_days weekdays (Date 2024 5 31)).
  - unfold valid_date. simpl. lia.
  - simpl. lia.
Defined.

(** Where the first day of the next month is no session the gate does open
    on the last session of the month, and only there. *)
Lemma gate_right_when_next_month_opens_closed (nyse : calendar) (today : date) :
  valid_date today →
  ¬ (year today = 9999 ∧ month today = 12) →
  nyse (first_of_next_month today) = false →
  is_last_trading_day nyse today = Ok true ↔
    last_trading_day_of_month nyse (year today) (month today) = Some today.
Proof.
  intros Hv Hrange Hnext.
  rewrite is_last_trading_day_value by done. cbv zeta.
  assert (∀ P `{Decision P}, Ok (bool_decide P) = @Ok bool true ↔ P) as ->.
  { intros P HP. split.
    - intros [= H]. apply bool_decide_eq_true in H. exact H.
    - intros H. f_equal. apply bool_decide_eq_true. exact H. }
  rewrite (today_in_valid_days nyse today Hv).
  unfold valid_days, last_trading_day_of_month.
  rewrite date_range_month, filter_app by done.
  rewrite (filter_cons_False _ (first_of_next_month today)) by (rewrite Hnext; done).
  rewrite filter_nil, app_nil_r.
  assert (rest_of_month (Date (year today) (month today) 1) =
          (Date (year today) (month today) <$> seqZ 1 (day today - 1)) ++
          rest_of_month today) as ->.
  { destruct Hv as (Hy & Hm & Hd). unfold rest_of_month. simpl.
    rewrite <- fmap_app. f_equal.
    replace (days_in_month (year today) (month today) - 1 + 1)
      with ((day today - 1) + (days_in_month (year today) (month today) - day today + 1))
      by lia.
    rewrite seqZ_app by lia. do 2 f_equal. lia. }
  rewrite filter_app, last_app.
  destruct (rest_of_month_head today Hv) as [later Hrest]. rewrite Hrest.
  split.
  - intros [Hs ->]. reflexivity.
  - intros Hlast.
    assert (nyse today = true) as Hs.
    { destruct (last (filter _ (today :: later))) as [x|] eqn:Hx.
      - injection Hlast as ->. apply last_Some_elem_of, list_elem_of_filter in Hx. tauto.
      - apply last_Some_elem_of, list_elem_of_filter in Hlast. tauto. }
    split; [exact Hs|].
    rewrite filter_cons_True in * by done.
    destruct (last (today :: filter _ later)) as [x|] eqn:Hx; [exact Hlast|].
    apply last_None in Hx. discriminate Hx.
Qed.

(** The month of the specification's example: August 2024 ends on a
    Saturday; with the Friday a holiday the gate opens on Thursday the 29th
    and on no other day. *)
Lemma gate_august_2024 :
  (is_last_trading_day friday_closed <$> (Date 2024 8 <$> seqZ 1 31)) =
    (λ d, Ok (bool_decide (d = 29))) <$> seqZ 1 31.
Proof. vm_compute. reflexivity. Qed.

(** ** Session tokens *)

Section Session.

Variable settings : config.
Variable environment : EnvironmentType.

Lemma get_session_token_hit (w : world) (token : pyval) (expiry : Z) :
  shelf w !! "session_token" = Some token →
  truthy token = true →
  shelf w !! "token_expiry" = Some (PDatetime expiry) →
  now w < expiry →
  get_session_token settings environment w =
    (Ok token,
     record (Logged INFO [Lit "Existing session token will expire at ";
                          Val (PDatetime expiry); Lit "."])
       (record (Logged SUCCESS [Lit "Found existing session token."]) w)).
Proof.
  intros Htok Htruthy Hexp Hnow.
  unfold get_session_token, mbind, M_bind, db_get at 1.
  rewrite Htok. simpl. rewrite Htruthy.
  unfold db_get. rewrite Hexp. simpl.
  unfold datetime_now, lift, datetime_lt.
  assert ((now w <? expiry) = true) as -> by lia.
  reflexivity.
Qed.

Lemma get_session_token_miss (w : world) :
  no_valid_token w →
  get_session_token settings environment w =
    request_session_token settings environment w.
Proof.
  intros H. unfold get_session_token, mbind, M_bind, db_get.
  destruct H as [H|H|expiry H Hle].
  - rewrite H. reflexivity.
  - rewrite H.
    destruct (truthy (default PNone (shelf w !! "session_token"))); reflexivity.
  - rewrite H. simpl.
    destruct (truthy (default PNone (shelf w !! "session_token"))); [|reflexivity].
    unfold datetime_now, lift, mbind, M_bind, datetime_lt.
    assert ((now w <? expiry) = false) as -> by lia.
    reflexivity.
Qed.


Lemma request_session_token_refused (w : world) (resp : response) :
  http (remote w (tick w)) = Ok resp →
  status_code resp ≠ 201 →
  request_session_token settings environment w =
    (Ok PNone,
     record (Logged DEBUG [Val (PStr (text resp))])
       (record (Logged ERROR [Lit "Session token request failed with response code: ";
                              Val (PInt (status_code resp)); Lit "."])
         (after_login settings environment w (remote w (tick w)) resp))).
Proof.
  intros Hhttp Hstatus.
  unfold request_session_token, after_login.
  assert ((status_code resp =? 201) = false) as Hs by lia.
  destruct environment; simpl;
    unfold mbind, M_bind, requests_post, mbind, M_bind, external, lift; simpl;
    rewrite Hhttp; simpl; rewrite Hs; reflexivity.
Qed.

(** C4: when the shelf holds a non-empty token and an expiry that the clock
    has not reached, [get_session_token] returns that very token, sends no
    request and leaves the shelf as it was; and a second call made on the
    resulting shelf, at any time still before the expiry, returns the same
    token and sends no request either. *)
Theorem cached_token_reused (w : world) (token : pyval) (expiry : Z) :
  shelf w !! "session_token" = Some token →
  truthy token = true →
  shelf w !! "token_expiry" = Some (PDatetime expiry) →
  now w < expiry →
  let first := get_session_token settings environment w in
  first.1 = Ok token ∧
  shelf first.2 = shelf w ∧
  requests_made first.2 = requests_made w ∧
  tick first.2 = tick w ∧
  ∀ w2 : world,
    shelf w2 = shelf first.2 → now w2 < expiry →
    let second := get_session_token settings environment w2 in
    second.1 = Ok token ∧
    requests_made second.2 = requests_made w2 ∧
    tick second.2 = tick w2 ∧
    shelf second.2 = shelf w2.
Proof.
  intros Htok Htruthy Hexp Hnow first. subst first.
  rewrite (get_session_token_hit w token expiry) by assumption.
  simpl. repeat split; try reflexivity.
  all: rewrite (get_session_token_hit w2 token expiry) by congruence.
  all: reflexivity.
Qed.


(** C6, as the script has it: when the shelf holds no valid token and the
    sessions endpoint answers with a status other than 201,
    [get_session_token] raises nothing: it returns [None], having logged
    the status code as an error and the response text as a debug record,
    and the shelf is exactly what it was. *)
Theorem refused_login_returns_none (w : world) (resp : response) :
  no_valid_token w →
  http (remote w (tick w)) = Ok resp →
  status_code resp ≠ 201 →
  let run := get_session_token settings environment w in
  run.1 = Ok PNone ∧
  shelf run.2 = shelf w ∧
  ∃ earlier,
    trace run.2 =
      Logged DEBUG [Val (PStr (text resp))] ::
      Logged ERROR [Lit "Session token request failed with response code: ";
                    Val (PInt (status_code resp)); Lit "."] ::
      earlier.
Proof.
  intros Hmiss Hhttp Hstatus run. subst run.
  rewrite get_session_token_miss by assumption.
  rewrite (request_session_token_refused w resp) by assumption.
  simpl. repeat split. eexists. reflexivity.
Qed.

End Session.

Lemma cached_token_reused_sample :
  let w := cached_world "t0k3n" 2000000 1000000 session_refused in
  let first := get_session_token sample_settings sandbox w in
  first.1 = Ok (PStr "t0k3n") ∧
  shelf first.2 = shelf w ∧
  requests_made first.2 = requests_made w ∧
  tick first.2 = tick w ∧
  ∀ w2 : world,
    shelf w2 = shelf first.2 → now w2 < 2000000 →
    let second := get_session_token sample_settings sandbox w2 in
    second.1 = Ok (PStr "t0k3n") ∧
    requests_made second.2 = requests_made w2 ∧
    tick second.2 = tick w2 ∧
    shelf second.2 = shelf w2.
Proof.
  apply (cached_token_reused sample_settings sandbox
           (cached_world "t0k3n" 2000000 1000000 session_refused)
           (PStr "t0k3n") 2000000).
  - reflexivity.
  - reflexivity.
  - reflexivity.
  - simpl. lia.
Defined.


Lemma refused_login_sample :
  let run := get_session_token sample_settings sandbox (fresh_world 1000000 session_refused) in
  run.1 = Ok PNone ∧ shelf run.2 = ∅.
Proof.
  pose proof (refused_login_returns_none sample_settings sandbox
                (fresh_world 1000000 session_refused)
                (Response 401 "invalid credentials" (Raise (ExternalError "JSONDecodeError")))) as H.
  destruct H as (Hres & Hshelf & _).
  - apply token_missing. reflexivity.
  - reflexivity.
  - simpl. lia.
  - split; assumption.
Defined.

(** A refused login is not signalled by an exception, and the value returned
    tells a 401 and a 500 apart no more than it tells their bodies apart. *)
Lemma refused_login_raises_nothing :
  let refused := get_session_token sample_settings sandbox (fresh_world 0 session_refused) in
  let broken := get_session_token sample_settings sandbox (fresh_world 0 server_broken) in
  refused.1 = Ok PNone ∧ (∀ e, refused.1 ≠ Raise e) ∧ refused.1 = broken.1.
Proof.
  repeat split. intros e H. discriminate H.
Qed.

(** ** Positions *)

Section Positions.

Variable settings : config.
Variable float_of_string : string → option float.

Lemma find_tqqq_absent (items : list pyval) :
  Forall other_instrument items → find_tqqq items = Ok None.
Proof.
  induction 1 as [|position rest (symbol & Hsym & Hne) _ IH]; [reflexivity|].
  simpl. rewrite Hsym. simpl. rewrite Hne. exact IH.
Qed.

Lemma get_position_absent (session_token : pyval) (w : world) (resp : response)
    (positions data : pyval) (items : list pyval) :
  http (remote w (tick w)) = Ok resp →
  json resp = Ok positions →
  getitem positions "data" = Ok data →
  getitem data "items" = Ok (PList items) →
  Forall other_instrument items →
  get_position settings float_of_string session_token w =
    (Ok (Int 0, 0%float, 0%float),
     advance (remote w (tick w))
       (record (Got (positions_url settings) {[ "Authorization" := session_token ]}) w)).
Proof.
  intros Hhttp Hjson Hdata Hitems Habsent.
  unfold get_position, requests_get, external, lift, mbind, M_bind. simpl.
  rewrite Hhttp. simpl. rewrite Hjson. simpl. rewrite Hdata. simpl.
  rewrite Hitems. simpl. rewrite (find_tqqq_absent items Habsent). reflexivity.
Qed.

(** C8: when the positions endpoint answers with a holdings list in which
    no entry has the symbol TQQQ, [get_position] returns normally, with
    quantity 0, unrealized PnL 0.0 and price 0.0. *)
Theorem absent_instrument_reads_as_zero (session_token : pyval) (w : world)
    (resp : response) (positions data : pyval) (items : list pyval) :
  http (remote w (tick w)) = Ok resp →
  json resp = Ok positions →
  getitem positions "data" = Ok data →
  getitem data "items" = Ok (PList items) →
  Forall other_instrument items →
  (get_position settings float_of_string session_token w).1 =
    Ok (Int 0, 0%float, 0%float).
Proof.
  intros. erewrite get_position_absent by eassumption. reflexivity.
Qed.

End Positions.

Lemma absent_instrument_sample :
  (get_position sample_settings no_float_of_string (PStr "t0k3n")
     (fresh_world 0 (holdings [spy_position]))).1 = Ok (Int 0, 0%float, 0%float).
Proof.
  apply (absent_instrument_reads_as_zero sample_settings no_float_of_string
           (PStr "t0k3n") (fresh_world 0 (holdings [spy_position]))
           (Response 200 "{...}"
              (Ok (PDict {[ "data" := PDict {[ "items" := PList [spy_position] ]} ]})))
           (PDict {[ "data" := PDict {[ "items" := PList [spy_position] ]} ]})
           (PDict {[ "items" := PList [spy_position] ]})
           [spy_position]).
  - reflexivity.
  - reflexivity.
  - reflexivity.
  - reflexivity.
  - constructor; [|constructor]. exists (PStr "SPY"). split; reflexivity.
Defined.

(** ** Orders and the rebalance decision *)

Section Orders.

Variable settings : config.
Variable float_of_string : string → option float.

Lemma execute_order_posts (session_token : pyval) (a : action) (shares : Z)
    (w w1 : world) (quantity : number) (pnl current_price : float) :
  get_position settings float_of_string session_token w = (Ok (quantity, pnl, current_price), w1) →
  trace (execute_order settings float_of_string session_token a shares w).2 =
    Posted (orders_url settings) (order_payload a shares current_price)
           {[ "Authorization" := session_token ]} :: trace w1.
Proof.
  intros Hpos. unfold execute_order, mbind, M_bind. rewrite Hpos.
  unfold requests_post, external, lift, mbind, M_bind. simpl.
  destruct (http (remote w1 (tick w1))) as [resp|e]; reflexivity.
Qed.

Lemma order_payload_price (a : action) (shares : Z) (current_price : float) :
  getitem (order_payload a shares current_price) "price" =
    Ok (PFloat (limit_price a current_price)).
Proof.
  unfold order_payload, getitem.
  rewrite lookup_insert_ne by done. rewrite lookup_insert_ne by done.
  rewrite lookup_insert_eq. reflexivity.
Qed.


(** C10: nothing guards the division of [rebalance].  For a price above
    zero it is defined, so no [ZeroDivisionError] can come out; for a price
    equal to zero, with the position value computed and different from the
    allocation, [ZeroDivisionError] comes out instead of a decision; and
    that is what happens when no TQQQ position is held, since
    [get_position] then reports the price 0.0. *)
Theorem division_by_price_unguarded :
  (∀ (quantity : number) (price : float),
     (0 <? price)%float = true →
     (∀ x, truediv x price = Ok (x / price)%float) ∧
     rebalance_decision quantity price ≠ Raise ZeroDivisionError) ∧
  (∀ (quantity : number) (price current_value : float),
     (price =? 0)%float = true →
     number_mul (number_abs quantity) price = Ok current_value →
     (Z2float fixed_allocation =? current_value)%float = false →
     rebalance_decision quantity price = Raise ZeroDivisionError) ∧
  (∀ (session_token : pyval) (w : world) (resp : response)
     (positions data : pyval) (items : list pyval),
     http (remote w (tick w)) = Ok resp →
     json resp = Ok positions →
     getitem positions "data" = Ok data →
     getitem data "items" = Ok (PList items) →
     Forall other_instrument items →
     (rebalance settings float_of_string session_token w).1 = Raise ZeroDivisionError).
Proof.
  split; [|split].
  - intros quantity price Hp.
    pose proof (positive_float_nonzero price Hp) as Hnz.
    split; [intros x; unfold truediv; rewrite Hnz; reflexivity|].
    unfold rebalance_decision, truediv, mbind, result_bind. rewrite Hnz.
    assert (∀ x, py_int x ≠ Raise ZeroDivisionError) as Hint.
    { intros x. unfold py_int. destruct (Prim2SF x); done. }
    destruct (number_mul (number_abs quantity) price) as [current_value|e] eqn:Hcv.
    + specialize (Hint (abs (Z2float fixed_allocation - current_value) / price)%float).
      destruct (py_int _) as [n|e]; [|congruence].
      destruct (n =? 0); [done|].
      destruct (0 <? Z2float fixed_allocation - current_value)%float; done.
    + destruct quantity as [z|f]; simpl in Hcv; [|done].
      unfold float_of_int in Hcv. destruct (is_finite _); simpl in Hcv; congruence.
  - intros quantity price current_value Hzero Hcv _.
    unfold rebalance_decision. rewrite Hcv. simpl. unfold truediv. rewrite Hzero. reflexivity.
  - intros session_token w resp positions data items Hhttp Hjson Hdata Hitems Habsent.
    unfold rebalance, mbind, M_bind.
    rewrite (get_position_absent settings float_of_string session_token w resp positions data items)
      by assumption.
    reflexivity.
Qed.
End Orders.



Lemma division_by_price_unguarded_sample :
  rebalance_decision (Float 10) 220 ≠ Raise ZeroDivisionError ∧
  rebalance_decision (Int 0) 0 = Raise ZeroDivisionError ∧
  (rebalance sample_settings no_float_of_string (PStr "t0k3n")
     (fresh_world 0 (holdings [spy_position]))).1 = Raise ZeroDivisionError.
Proof.
  destruct (division_by_price_unguarded sample_settings no_float_of_string)
    as (Hpositive & Hzero & Habsent).
  split; [|split].
  - apply (Hpositive (Float 10) 220%float). reflexivity.
  - apply (Hzero (Int 0) 0%float 0%float); reflexivity.
  - apply (Habsent (PStr "t0k3n") (fresh_world 0 (holdings [spy_position]))
             (Response 200 "{...}"
                (Ok (PDict {[ "data" := PDict {[ "items" := PList [spy_position] ]} ]})))
             (PDict {[ "data" := PDict {[ "items" := PList [spy_position] ]} ]})
             (PDict {[ "items" := PList [spy_position] ]})
             [spy_position]); try reflexivity.
    constructor; [|constructor]. exists (PStr "SPY"). split; reflexivity.
Defined.

(** The examples of the specification. *)
Lemma rebalance_decision_examples :
  rebalance_decision (Int 0) 100 = Ok (Some BUY, 20) ∧
  rebalance_decision (Float 10) 220 = Ok (None, 0) ∧
  rebalance_decision (Float (-5)) 300 = Ok (Some BUY, 1) ∧
  rebalance_decision (Float 30) 100 = Ok (Some SELL, 10).
Proof. repeat split. Qed.

(** A price above zero does not make the decision defined: with the
    smallest positive float as the price the quotient overflows to
    infinity and [int] raises. *)
Lemma rebalance_decision_overflows :
  (0 <? 0x1p-1074)%float = true ∧
  rebalance_decision (Float 0) 0x1p-1074 = Raise OverflowError.
Proof. split; reflexivity. Qed.

(** C1, for the inputs on which the arithmetic is defined: for a price
    above zero, with [current_value = |quantity| * price] computed,
    [difference = allocation - current_value] and
    [shares = floor(|difference| / price)] defined (the quotient is neither
    infinite nor NaN), [rebalance] returns that share count, which is not
    negative; the action is [None] exactly when the count is 0, BUY when
    the count is positive and the difference above zero, SELL when the
    count is positive and the difference below zero, and a positive count
    leaves no third case. *)
Theorem rebalance_decision_spec (quantity : number) (price current_value : float) (shares : Z) :
  (0 <? price)%float = true →
  number_mul (number_abs quantity) price = Ok current_value →
  let difference := (Z2float fixed_allocation - current_value)%float in
  py_floor (abs difference / price) = Ok shares →
  0 ≤ shares ∧
  ∃ a : option action,
    rebalance_decision quantity price = Ok (a, shares) ∧
    (a = None ↔ shares = 0) ∧
    (0 < shares → (0 <? difference)%float = true → a = Some BUY) ∧
    (0 < shares → (difference <? 0)%float = true → a = Some SELL) ∧
    (0 < shares → (0 <? difference)%float = true ∨ (difference <? 0)%float = true).
Proof.
  intros Hp Hcv difference Hfloor.
  unfold rebalance_decision. rewrite Hcv. simpl.
  fold difference. unfold truediv. rewrite (positive_float_nonzero price Hp). simpl.
  pose proof (quotient_cases difference price Hp) as Hq.
  unfold py_floor in Hfloor. unfold py_int.
  destruct (Prim2SF (abs difference / price)) as [s|s| |s m e]; try discriminate.
  - injection Hfloor as <-. simpl. split; [lia|].
    exists None. repeat split; try lia; done.
  - destruct Hq as (-> & sd & md & ed & Hd).
    injection Hfloor as <-. rewrite SF_trunc_floor. simpl.
    pose proof (SF_floor_nonneg m e) as Hnn. split; [exact Hnn|].
    destruct (finite_sign difference sd md ed Hd) as [Hpos Hneg].
    destruct (Z.eqb_spec (SF_floor false m e) 0) as [Hz|Hz].
    + rewrite Hz. exists None. repeat split; try lia; try done.
    + rewrite Hpos, Hneg. destruct sd; simpl.
      * exists (Some SELL). repeat split; try done; try lia.
      * exists (Some BUY). repeat split; try done; try lia.
Qed.


Lemma rebalance_decision_sample :
  let difference := (Z2float fixed_allocation - 1500)%float in
  0 ≤ 1 ∧
  ∃ a : option action,
    rebalance_decision (Float (-5)) 300 = Ok (a, 1) ∧
    (a = None ↔ 1 = 0) ∧
    (0 < 1 → (0 <? difference)%float = true → a = Some BUY) ∧
    (0 < 1 → (difference <? 0)%float = true → a = Some SELL) ∧
    (0 < 1 → (0 <? difference)%float = true ∨ (difference <? 0)%float = true).
Proof.
  apply (rebalance_decision_spec (Float (-5)) 300%float 1500%float 1); reflexivity.
Defined.

(** ** Who calls the notifier *)

Section Notifier.

Context {A B : Type}.

Lemma quiet_ret (a : A) : quiet (mret a : M A).
Proof. intros w. reflexivity. Qed.

Lemma quiet_lift (r : result A) : quiet (lift r).
Proof. intros w. reflexivity. Qed.

Lemma quiet_bind (m : M A) (k : A → M B) :
  quiet m → (∀ a, quiet (k a)) → quiet (m ≫= k).
Proof.
  intros Hm Hk w. unfold mbind, M_bind. specialize (Hm w).
  destruct (m w) as [[a|e] w']; simpl in *; [|exact Hm].
  rewrite Hk. exact Hm.
Qed.

Lemma quiet_try_except (m : M A) (handler : exn → M A) :
  quiet m → (∀ e, quiet (handler e)) → quiet (try_except m handler).
Proof.
  intros Hm Hh w. unfold try_except. specialize (Hm w).
  destruct (m w) as [[a|e] w']; simpl in *; [exact Hm|].
  rewrite Hh. exact Hm.
Qed.

Lemma calm_ret (a : A) : calm (mret a : M A).
Proof. intros w. split; [exists a|]; reflexivity. Qed.

Lemma calm_quiet (m : M A) : calm m → quiet m.
Proof. intros H w. apply H. Qed.

Lemma fires_guarded (m : M A) : fires m → guarded m.
Proof.
  intros H w. destruct (H w) as [[a Ha] Hn]. rewrite Ha. exact Hn.
Qed.

Lemma guarded_after_quiet (m : M A) (k : A → M B) :
  quiet m → (∀ a, guarded (k a)) → guarded (m ≫= k).
Proof.
  intros Hm Hk w. unfold mbind, M_bind. specialize (Hm w).
  destruct (m w) as [[a|e] w']; simpl in *; [|exact Hm].
  specialize (Hk a w'). destruct (k a w').1; congruence.
Qed.

Lemma fires_after_calm (m : M A) (k : A → M B) :
  calm m → (∀ a, fires (k a)) → fires (m ≫= k).
Proof.
  intros Hm Hk w. unfold mbind, M_bind. destruct (Hm w) as [[a Ha] Hn].
  destruct (m w) as [r w']; simpl in *; subst r.
  destruct (Hk a w') as [Hr Hc]. split; [exact Hr|congruence].
Qed.

Lemma fires_then_calm (m : M A) (k : A → M B) :
  fires m → (∀ a, calm (k a)) → fires (m ≫= k).
Proof.
  intros Hm Hk w. unfold mbind, M_bind. destruct (Hm w) as [[a Ha] Hn].
  destruct (m w) as [r w']; simpl in *; subst r.
  destruct (Hk a w') as [Hr Hc]. split; [exact Hr|congruence].
Qed.

Lemma fires_try_except (m : M A) (handler : exn → M A) :
  guarded m → (∀ e, fires (handler e)) → fires (try_except m handler).
Proof.
  intros Hm Hh w. unfold try_except. specialize (Hm w).
  destruct (m w) as [[a|e] w']; simpl in *.
  - split; [exists a; reflexivity|exact Hm].
  - destruct (Hh e w') as [Hr Hc]. split; [exact Hr|congruence].
Qed.

End Notifier.

Lemma calm_emit (e : event) : is_notification e = false → calm (emit e).
Proof.
  intros He w. split; [exists (); reflexivity|].
  unfold notifications. simpl. rewrite He. reflexivity.
Qed.

Lemma calm_logger (level : log_level) (message : fstring) : calm (logger level message).
Proof. apply calm_emit. reflexivity. Qed.

Lemma quiet_logger (level : log_level) (message : fstring) : quiet (logger level message).
Proof. apply calm_quiet, calm_logger. Qed.

Lemma quiet_db_get (key : string) : quiet (db_get key).
Proof. intros w. reflexivity. Qed.

Lemma quiet_db_set (key : string) (v : pyval) : quiet (db_set key v).
Proof. intros w. reflexivity. Qed.

Lemma quiet_datetime_now : quiet datetime_now.
Proof. intros w. reflexivity. Qed.

Lemma quiet_external (e : event) : is_notification e = false → quiet (external e).
Proof.
  intros He w. unfold notifications. simpl. rewrite He. reflexivity.
Qed.

Lemma quiet_requests_post url payload headers : quiet (requests_post url payload headers).
Proof.
  apply quiet_bind; [apply quiet_external; reflexivity|intros; apply quiet_lift].
Qed.

Lemma quiet_requests_get url headers : quiet (requests_get url headers).
Proof.
  apply quiet_bind; [apply quiet_external; reflexivity|intros; apply quiet_lift].
Qed.

Lemma quiet_server (call : smtp_call) : quiet (server call).
Proof.
  apply quiet_bind; [apply quiet_external; reflexivity|intros; apply quiet_lift].
Qed.

Create HintDb quiet.
#[local] Hint Resolve quiet_ret quiet_lift quiet_logger quiet_db_get quiet_db_set
  quiet_datetime_now quiet_requests_post quiet_requests_get quiet_server : quiet.

(** Walks down a computation built from binds, branches and the primitives
    above. *)
Ltac quiet_step :=
  cbv zeta;
  lazymatch goal with
  | |- quiet (_ ≫= _) => apply quiet_bind; [|intros]
  | |- quiet (try_except _ _) => apply quiet_try_except; [|intros]
  | |- quiet (if ?b then _ else _) => destruct b
  | |- quiet (match ?x with _ => _ end) => destruct x
  | |- quiet (let '(_, _) := ?x in _) => destruct x
  | |- _ => solve [auto with quiet]
  end.

Section Run.

Variable settings : config.
Variable float_of_string : string → option float.

Lemma quiet_request_session_token environment :
  quiet (request_session_token settings environment).
Proof. unfold request_session_token. destruct environment; repeat quiet_step. Qed.

Lemma quiet_get_session_token environment :
  quiet (get_session_token settings environment).
Proof.
  unfold get_session_token. repeat quiet_step.
  all: apply quiet_request_session_token.
Qed.

Lemma quiet_get_position session_token :
  quiet (get_position settings float_of_string session_token).
Proof. unfold get_position. repeat quiet_step. Qed.

#[local] Hint Resolve quiet_get_session_token quiet_get_position : quiet.

Lemma quiet_rebalance session_token :
  quiet (rebalance settings float_of_string session_token).
Proof. unfold rebalance. repeat quiet_step. Qed.

Lemma quiet_execute_order session_token a quantity :
  quiet (execute_order settings float_of_string session_token a quantity).
Proof. unfold execute_order. repeat quiet_step. Qed.

Lemma fires_send_email_update trade_info error_message :
  fires (send_email_update settings float_of_string trade_info error_message).
Proof.
  assert (∀ m : M (), quiet m →
            fires (emit (Notified trade_info error_message);;
                   try_except m
                     (λ e, logger ERROR [Lit "Failed to send email update: "; Exc e])))
    as Hshape.
  { intros m Hm w. unfold mbind, M_bind, emit, try_except. simpl.
    specialize (Hm (record (Notified trade_info error_message) w)).
    destruct (m _) as [[[]|e] w']; simpl in *.
    - split; [exists (); reflexivity|exact Hm].
    - split; [exists (); reflexivity|exact Hm]. }
  apply Hshape. repeat quiet_step.
Qed.

Lemma fires_report (message : fstring) trade_info error_message (finished : bool) :
  fires (logger ERROR message;;
         send_email_update settings float_of_string trade_info error_message;;
         mret finished).
Proof.
  apply fires_after_calm; [apply calm_logger|intros _].
  apply fires_then_calm; [apply fires_send_email_update|intros _; apply calm_ret].
Qed.

Lemma fires_main_body : fires (main_body settings float_of_string).
Proof.
  unfold main_body.
  apply fires_try_except; [|intros e; apply fires_report].
  apply guarded_after_quiet; [apply quiet_get_session_token|intros session_token].
  destruct (negb (truthy session_token)).
  { apply fires_guarded, fires_report. }
  apply guarded_after_quiet; [apply quiet_rebalance|intros [[a|] shares_to_trade]].
  - apply fires_guarded.
    apply fires_after_calm; [apply calm_logger|intros _].
    apply fires_try_except; [|intros e; apply fires_report].
    apply guarded_after_quiet; [apply quiet_execute_order|intros order_response].
    apply guarded_after_quiet; [apply quiet_lift|intros price].
    apply fires_guarded.
    apply fires_after_calm; [apply calm_logger|intros _].
    apply fires_then_calm; [apply fires_send_email_update|intros _; apply calm_ret].
  - apply fires_guarded.
    apply fires_after_calm; [apply calm_logger|intros _].
    apply fires_then_calm; [apply fires_send_email_update|intros _; apply calm_ret].
Qed.

(** C9: whatever the shelf holds and whatever the network and the mail
    relay answer (so on every path: a trade, no trade, no session token, a
    failed order, any other exception), [main] returns normally and has
    entered [send_email_update] exactly once. *)
Theorem main_notifies_exactly_once (w : world) :
  let run := main settings float_of_string w in
  run.1 = Ok () ∧ notifications run.2 = S (notifications w).
Proof.
  assert (fires (main settings float_of_string)) as H.
  { unfold main.
    apply fires_after_calm; [apply calm_logger|intros _].
    apply fires_then_calm; [apply fires_main_body|].
    intros [|]; [apply calm_logger|apply calm_ret]. }
  destruct (H w) as [[[] Hr] Hn]. split; assumption.
Qed.

End Run.

(** A run that trades: ten shares at 60 are 600 dollars, 1400 short of the
    allocation, so 23 shares are bought; the one notification carries the
    trade. *)
Lemma main_trading_run :
  let w := scripted_world
             [session_created; holdings [tqqq_position]; holdings [tqqq_position];
              order_received] in
  let run := main sample_settings no_float_of_string w in
  run.1 = Ok () ∧
  List.filter is_notification (trace run.2) =
    [Notified (PDict {[ "action" := PStr "BUY"; "shares" := PInt 23;
                        "limit_price" := PFloat 60.3 ]}) None].
Proof. vm_compute. split; reflexivity. Qed.

(** The other ways out of [main]: no session token, nothing to trade, an
    order that cannot be posted, and an answer without holdings. *)
Lemma main_other_runs :
  let notified script :=
    List.filter is_notification
      (trace (main sample_settings no_float_of_string (scripted_world script)).2) in
  notified [session_refused] =
    [Notified PNone (Some [Lit "Failed to get session token"])] ∧
  notified [session_created; holdings [balanced_position]] =
    [Notified PNone None] ∧
  notified [session_created; holdings [tqqq_position]; holdings [tqqq_position]] =
    [Notified PNone (Some [Lit "Error executing order: ";
                           Exc (ExternalError "ConnectionError")])] ∧
  notified [session_created; session_created] =
    [Notified PNone (Some [Lit "Unexpected error in rebalancing process: ";
                           Exc (KeyError "items")])].
Proof. vm_compute. repeat split. Qed.

(** ** More on session tokens *)

Section Tokens.
Variable settings : config.
Variable environment : EnvironmentType.

Lemma request_session_token_outcome (w : world) :
  let run := request_session_token settings environment w in
  requests_made run.2 = S (requests_made w) ∧
  tick run.2 = S (tick w) ∧
  now run.2 = now w + elapsed (remote w (tick w)) ∧
  (shelf run.2 = shelf w ∧ (∀ token, run.1 = Ok token → token = PNone) ∨
   ∃ token, run.1 = Ok token ∧
     shelf run.2 = stored token (now run.2 + timedelta_hours 24) (shelf w)).
Proof.
  unfold request_session_token.
  destruct environment; simpl;
    unfold mbind, M_bind, requests_post, mbind, M_bind, external, lift; simpl;
    (destruct (http (remote w (tick w))) as [resp|e]; simpl;
     [|repeat split; left; split; [reflexivity|intros ? [=]]]);
    (destruct (status_code resp =? 201); simpl;
     [|repeat split; left; split; [reflexivity|intros ? [= <-]; reflexivity]]);
    (destruct (json resp) as [data|e]; simpl;
     [|repeat split; left; split; [reflexivity|intros ? [=]]]);
    (destruct (getitem data "data") as [inner|e]; simpl;
     [|repeat split; left; split; [reflexivity|intros ? [=]]]);
    (destruct (getitem inner "session-token") as [token|e]; simpl;
     [|repeat split; left; split; [reflexivity|intros ? [=]]]);
    repeat split; right; exists token; split; reflexivity.
Qed.

(** What the test at the head of [get_session_token] can find. *)
Lemma cache_cases (w : world) :
  (∃ token expiry,
     shelf w !! "session_token" = Some token ∧ truthy token = true ∧
     shelf w !! "token_expiry" = Some (PDatetime expiry) ∧ now w < expiry) ∨
  no_valid_token w ∨
  ((get_session_token settings environment w) = (Raise TypeError, w)).
Proof.
  destruct (truthy (default PNone (shelf w !! "session_token"))) eqn:Htok;
    [|right; left; apply token_missing; exact Htok].
  destruct (truthy (default PNone (shelf w !! "token_expiry"))) eqn:Hexp;
    [|right; left; apply expiry_missing; exact Hexp].
  destruct (shelf w !! "session_token") as [token|] eqn:Hst; [|discriminate Htok].
  destruct (shelf w !! "token_expiry") as [v|] eqn:Hse; [|discriminate Hexp].
  destruct v as [ | | | | | | |expiry]; try discriminate Hexp;
    try (right; right; unfold get_session_token, mbind, M_bind, db_get;
         rewrite Hst, Hse; simpl in *; rewrite Htok;
         first [rewrite Hexp|idtac]; reflexivity).
  destruct (Z.ltb_spec (now w) expiry) as [Hlt|Hge].
  - left. exists token, expiry. done.
  - right; left. apply (token_expired w expiry); [exact Hse|lia].
Qed.

(** Whatever the shelf holds and whatever the endpoint answers, a call of
    [get_session_token] either leaves the shelf exactly as it was, or
    returns a token and has stored that token together with an expiry 24
    hours after the clock: never one of the two without the other. *)
Theorem token_and_expiry_stored_together (w : world) :
  let run := get_session_token settings environment w in
  shelf run.2 = shelf w ∨
  ∃ token, run.1 = Ok token ∧
    shelf run.2 = stored token (now run.2 + timedelta_hours 24) (shelf w).
Proof.
  destruct (cache_cases w) as [(token & expiry & Htok & Htr & Hexp & Hlt)|[Hmiss|Herr]].
  - rewrite (get_session_token_hit settings environment w token expiry) by assumption.
    left. reflexivity.
  - rewrite get_session_token_miss by assumption.
    destruct (request_session_token_outcome w) as (_ & _ & _ & [[H _]|H]); [left|right]; exact H.
  - rewrite Herr. left. reflexivity.
Qed.

(** A call of [get_session_token] sends no request at all, or exactly one,
    and one only when the shelf holds no valid token. *)
Theorem at_most_one_login_request (w : world) :
  let run := get_session_token settings environment w in
  (requests_made run.2 = requests_made w ∧ tick run.2 = tick w ∧ now run.2 = now w) ∨
  (no_valid_token w ∧ requests_made run.2 = S (requests_made w) ∧ tick run.2 = S (tick w)).
Proof.
  destruct (cache_cases w) as [(token & expiry & Htok & Htr & Hexp & Hlt)|[Hmiss|Herr]].
  - rewrite (get_session_token_hit settings environment w token expiry) by assumption.
    left. done.
  - rewrite get_session_token_miss by assumption. right.
    destruct (request_session_token_outcome w) as (H1 & H2 & _). done.
  - rewrite Herr. left. done.
Qed.

Lemma get_session_token_leaves_valid (w : world) (token : pyval) :
  (get_session_token settings environment w).1 = Ok token →
  truthy token = true →
  let w1 := (get_session_token settings environment w).2 in
  ∃ expiry, shelf w1 !! "session_token" = Some token ∧
            shelf w1 !! "token_expiry" = Some (PDatetime expiry) ∧ now w1 < expiry.
Proof.
  destruct (cache_cases w) as [(tok & expiry & Htok & Htr & Hexp & Hlt)|[Hmiss|Herr]].
  - rewrite (get_session_token_hit settings environment w tok expiry) by assumption.
    simpl. intros [= <-] _. exists expiry. done.
  - rewrite get_session_token_miss by assumption.
    destruct (request_session_token_outcome w) as (_ & _ & _ & [[_ H]|(tok & Hr & Hs)]).
    + intros Hr Htr. apply H in Hr. subst token. discriminate Htr.
    + intros Hr' _. rewrite Hr in Hr'. injection Hr' as ->. cbv zeta. rewrite Hs.
      exists (now (request_session_token settings environment w).2 + timedelta_hours 24).
      unfold stored. rewrite lookup_insert_ne by done. rewrite !lookup_insert_eq.
      unfold timedelta_hours. split; [done|]. split; [done|]. lia.
  - rewrite Herr. discriminate.
Qed.

(** After a call of [get_session_token] has returned a non-empty token,
    whether from the shelf or from the endpoint, a call made on the world
    it leaves returns the same token without any request. *)
Theorem second_call_is_served_from_the_shelf (w : world) (token : pyval) :
  (get_session_token settings environment w).1 = Ok token →
  truthy token = true →
  let w1 := (get_session_token settings environment w).2 in
  let again := get_session_token settings environment w1 in
  again.1 = Ok token ∧
  shelf again.2 = shelf w1 ∧
  requests_made again.2 = requests_made w1 ∧
  tick again.2 = tick w1.
Proof.
  intros Hr Htr w1.
  destruct (get_session_token_leaves_valid w token Hr Htr) as (expiry & Hs & He & Hlt).
  fold w1 in Hs, He, Hlt. cbv zeta.
  rewrite (get_session_token_hit settings environment w1 token expiry) by assumption.
  done.
Qed.

End Tokens.

Section Paths.

Variable settings : config.
Variable float_of_string : string → option float.

(** With no valid token on the shelf, a request that breaks (the transport
    raises, or the endpoint answers 201 with a body that is no JSON or
    lacks the token) is not turned into [None]: the exception comes out of
    [get_session_token], after one request, and nothing is stored. *)
Theorem broken_login_raises_and_stores_nothing (environment : EnvironmentType)
    (w : world) (e : exn) :
  no_valid_token w →
  login_breaks w e →
  let run := get_session_token settings environment w in
  run.1 = Raise e ∧ shelf run.2 = shelf w ∧ requests_made run.2 = S (requests_made w).
Proof.
  intros Hmiss Hbreak. cbv zeta. rewrite get_session_token_miss by assumption.
  unfold request_session_token.
  destruct Hbreak as [Hhttp|resp Hhttp Hst Hjson|resp body Hhttp Hst Hjson Hdata
                      |resp body data Hhttp Hst Hjson Hdata Htok];
    destruct environment; simpl;
    unfold mbind, M_bind, requests_post, mbind, M_bind, external, lift; simpl;
    rewrite Hhttp; simpl; try (rewrite Hst; simpl; rewrite Hjson; simpl);
    try (rewrite Hdata; simpl); try (rewrite Htok; simpl); done.
Qed.

End Paths.

(** ** More on positions and orders *)

Lemma abs_opp (q : float) : abs (- q) = abs q.
Proof.
  apply Prim2SF_inj. rewrite !abs_spec, opp_spec.
  destruct (Prim2SF q); reflexivity.
Qed.

Lemma abs_positive (q : float) : (0 <? q)%float = true → abs q = q.
Proof.
  intros H. apply Prim2SF_inj. rewrite abs_spec.
  destruct (positive_float q H) as [(m & e & ->)| ->]; reflexivity.
Qed.

Lemma positive_signs (q : float) :
  (0 <? q)%float = true → (q <? 0)%float = false ∧ (- q <? 0)%float = true.
Proof.
  intros H. rewrite !FloatAxioms.ltb_spec, opp_spec, Prim2SF_zero.
  destruct (positive_float q H) as [(m & e & ->)| ->]; split; reflexivity.
Qed.

Section Positions2.
Variable settings : config.
Variable float_of_string : string → option float.

Theorem find_tqqq_first_match (before after : list pyval) (p symbol : pyval) :
  Forall other_instrument before →
  getitem p "symbol" = Ok symbol →
  eq_str symbol "TQQQ" = true →
  find_tqqq (before ++ p :: after) = Ok (Some p).
Proof.
  intros Hbefore Hsym Heq.
  induction Hbefore as [|q rest (s & Hs & Hne) _ IH]; simpl.
  - rewrite Hsym. simpl. rewrite Heq. reflexivity.
  - rewrite Hs. simpl. rewrite Hne. exact IH.
Qed.

Lemma find_tqqq_stops_at_error (before after : list pyval) (p : pyval) (e : exn) :
  Forall other_instrument before →
  getitem p "symbol" = Raise e →
  find_tqqq (before ++ p :: after) = Raise e.
Proof.
  intros Hbefore Hsym.
  induction Hbefore as [|q rest (s & Hs & Hne) _ IH]; simpl.
  - rewrite Hsym. reflexivity.
  - rewrite Hs. simpl. rewrite Hne. exact IH.
Qed.

Lemma get_position_world (session_token : pyval) (w : world) :
  (get_position settings float_of_string session_token w).2 =
    after_positions settings session_token w.
Proof.
  unfold get_position, requests_get, external, lift, mbind, M_bind. simpl.
  destruct (http (remote w (tick w))) as [resp|e]; simpl; [|reflexivity].
  destruct (json resp); reflexivity.
Qed.

Lemma get_position_items (session_token : pyval) (w : world) (items : list pyval) :
  answers_holdings w items →
  (get_position settings float_of_string session_token w).1 =
    (tqqq_position ← find_tqqq items;
     match tqqq_position with
     | None => Ok (Int 0, 0%float, 0%float)
     | Some tqqq_position =>
         quantity ← getitem tqqq_position "quantity" ≫= py_float float_of_string;
         direction ← getitem tqqq_position "quantity-direction";
         let quantity := if eq_str direction "Short" then (- quantity)%float else quantity in
         avg_open_price ← getitem tqqq_position "average-open-price" ≫= py_float float_of_string;
         close_price ← getitem tqqq_position "close-price" ≫= py_float float_of_string;
         multiplier ← getitem tqqq_position "multiplier" ≫= py_float float_of_string;
         let unrealized_pnl :=
           ((close_price - avg_open_price) * abs quantity * multiplier)%float in
         let unrealized_pnl :=
           if (quantity <? 0)%float then (- unrealized_pnl)%float else unrealized_pnl in
         Ok (Float quantity, unrealized_pnl, close_price)
     end).
Proof.
  intros (resp & positions & data & Hhttp & Hjson & Hdata & Hitems).
  unfold get_position, requests_get, external, lift, mbind at 1 2 3, M_bind. simpl.
  rewrite Hhttp. simpl. rewrite Hjson. simpl. rewrite Hdata. simpl.
  rewrite Hitems. reflexivity.
Qed.

(** An entry that cannot give its symbol, standing before the TQQQ entry,
    makes [get_position] fail with the exception of that lookup, whatever
    follows it in the list. *)
Theorem entry_without_symbol_hides_position (session_token : pyval) (w : world)
    (before after : list pyval) (p : pyval) (e : exn) :
  answers_holdings w (before ++ p :: after) →
  Forall other_instrument before →
  getitem p "symbol" = Raise e →
  (get_position settings float_of_string session_token w).1 = Raise e.
Proof.
  intros Hw Hbefore Hsym.
  rewrite (get_position_items session_token w _ Hw).
  rewrite (find_tqqq_stops_at_error before after p e Hbefore Hsym). reflexivity.
Qed.

(** The first TQQQ entry decides, whatever follows it.  For a positive size
    a long position is reported with that size and the PnL
    [(close - open) * size * multiplier]; a short one with the size and the
    PnL both negated; the price is the close price in both cases. *)
Theorem position_sign_convention (session_token : pyval) (w : world)
    (before after : list pyval) (p direction : pyval)
    (quantity avg_open_price close_price multiplier : float) :
  answers_holdings w (before ++ p :: after) →
  Forall other_instrument before →
  tqqq_entry float_of_string p quantity direction avg_open_price close_price multiplier →
  (0 <? quantity)%float = true →
  let pnl := ((close_price - avg_open_price) * quantity * multiplier)%float in
  (get_position settings float_of_string session_token w).1 =
    Ok (if eq_str direction "Short" then (Float (- quantity), (- pnl)%float, close_price)
        else (Float quantity, pnl, close_price)).
Proof.
  intros Hw Hbefore Hentry Hpos pnl.
  destruct Hentry as ((symbol & Hsym & Heq) & (vq & Hq & Hfq) & Hd &
                      (va & Ha & Hfa) & (vc & Hc & Hfc) & (vm & Hm & Hfm)).
  rewrite (get_position_items session_token w _ Hw).
  rewrite (find_tqqq_first_match before after p symbol Hbefore Hsym Heq).
  unfold mbind, result_bind.
  rewrite Hq, Hfq, Hd, Ha, Hfa, Hc, Hfc, Hm, Hfm.
  destruct (positive_signs quantity Hpos) as [Hlong Hshort].
  destruct (eq_str direction "Short"); cbv zeta.
  - rewrite Hshort, abs_opp, (abs_positive quantity Hpos). reflexivity.
  - rewrite Hlong, (abs_positive quantity Hpos). reflexivity.
Qed.

(** Reading the position, and deciding on it, send exactly one GET to the
    positions endpoint and leave the shelf alone, whatever the answer is
    and whether the decision can be computed or not. *)
Theorem reading_and_deciding_touch_nothing (session_token : pyval) (w : world) :
  let read := get_position settings float_of_string session_token w in
  let decided := rebalance settings float_of_string session_token w in
  decided.2 = read.2 ∧
  shelf read.2 = shelf w ∧
  trace read.2 =
    Got (positions_url settings) {[ "Authorization" := session_token ]} :: trace w ∧
  tick read.2 = S (tick w).
Proof.
  cbv zeta. rewrite get_position_world. split; [|done].
  unfold rebalance, mbind, M_bind.
  pose proof (get_position_world session_token w) as H.
  destruct (get_position settings float_of_string session_token w) as [[[[q pnl] price]|e] w'];
    simpl in *; exact H.
Qed.

(** When the position cannot be read, [execute_order] raises what the
    reading raised and posts nothing. *)
Theorem no_order_without_position_read (session_token : pyval) (a : action) (shares : Z)
    (w : world) (e : exn) :
  (get_position settings float_of_string session_token w).1 = Raise e →
  execute_order settings float_of_string session_token a shares w =
    (Raise e, after_positions settings session_token w).
Proof.
  intros H. unfold execute_order, mbind, M_bind.
  pose proof (get_position_world session_token w) as Hw.
  destruct (get_position settings float_of_string session_token w) as [[r|e'] w'];
    simpl in *; [discriminate H|]. congruence.
Qed.

(** With no TQQQ entry among the holdings [execute_order] does post an
    order, and its limit price is 0.0, the price [get_position] reports for
    an absent instrument. *)
Theorem order_without_holding_is_priced_zero (session_token : pyval) (a : action)
    (shares : Z) (w : world) (items : list pyval) :
  answers_holdings w items →
  Forall other_instrument items →
  ∃ payload headers,
    trace (execute_order settings float_of_string session_token a shares w).2 =
      Posted (orders_url settings) payload headers ::
      trace (after_positions settings session_token w) ∧
    getitem payload "price" = Ok (PFloat 0).
Proof.
  intros (resp & positions & data & Hhttp & Hjson & Hdata & Hitems) Habsent.
  pose proof (get_position_absent settings float_of_string session_token w resp
                positions data items Hhttp Hjson Hdata Hitems Habsent) as Hpos.
  exists (order_payload a shares 0), {[ "Authorization" := session_token ]}.
  split.
  - exact (execute_order_posts settings float_of_string session_token a shares w _ _ _ _ Hpos).
  - rewrite order_payload_price. destruct a; reflexivity.
Qed.

End Positions2.

(** The decision does not see the direction of a position: a short
    position gets the decision of the long position of the same size. *)
Theorem short_is_valued_like_long (quantity price : float) :
  rebalance_decision (Float (- quantity)) price = rebalance_decision (Float quantity) price.
Proof. unfold rebalance_decision. simpl. rewrite abs_opp. reflexivity. Qed.

(** ** Watching a run *)

Section Silent.

Variable P : event → bool.
Context {A B : Type}.

Lemma seen_record (e : event) (w : world) :
  seen P (record e w) = if P e then e :: seen P w else seen P w.
Proof. unfold seen. simpl. destruct (P e); reflexivity. Qed.

Lemma seen_advance (r : reply) (w : world) : seen P (advance r w) = seen P w.
Proof. reflexivity. Qed.

Lemma silent_ret (a : A) : silent P (mret a : M A).
Proof. intros w. reflexivity. Qed.

Lemma silent_lift (r : result A) : silent P (lift r).
Proof. intros w. reflexivity. Qed.

Lemma silent_bind (m : M A) (k : A → M B) :
  silent P m → (∀ a, silent P (k a)) → silent P (m ≫= k).
Proof.
  intros Hm Hk w. unfold mbind, M_bind. specialize (Hm w).
  destruct (m w) as [[a|e] w']; simpl in *; [|exact Hm].
  rewrite Hk. exact Hm.
Qed.

Lemma silent_try_except (m : M A) (handler : exn → M A) :
  silent P m → (∀ e, silent P (handler e)) → silent P (try_except m handler).
Proof.
  intros Hm Hh w. unfold try_except. specialize (Hm w).
  destruct (m w) as [[a|e] w']; simpl in *; [exact Hm|].
  rewrite Hh. exact Hm.
Qed.

Lemma silent_sparing (m : M A) : silent P m → sparing P m.
Proof. intros H w. rewrite H. lia. Qed.

Lemma sparing_after_silent (m : M A) (k : A → M B) :
  silent P m → (∀ a, sparing P (k a)) → sparing P (m ≫= k).
Proof.
  intros Hm Hk w. unfold mbind, M_bind. specialize (Hm w).
  destruct (m w) as [[a|e] w']; simpl in *; [|rewrite Hm; lia].
  specialize (Hk a w'). rewrite Hm in Hk. exact Hk.
Qed.

Lemma sparing_then_silent (m : M A) (k : A → M B) :
  sparing P m → (∀ a, silent P (k a)) → sparing P (m ≫= k).
Proof.
  intros Hm Hk w. unfold mbind, M_bind. specialize (Hm w).
  destruct (m w) as [[a|e] w']; simpl in *; [|exact Hm].
  rewrite Hk. exact Hm.
Qed.

Lemma sparing_try_except (m : M A) (handler : exn → M A) :
  sparing P m → (∀ e, silent P (handler e)) → sparing P (try_except m handler).
Proof.
  intros Hm Hh w. unfold try_except. specialize (Hm w).
  destruct (m w) as [[a|e] w']; simpl in *; [exact Hm|].
  rewrite Hh. exact Hm.
Qed.

End Silent.

Lemma silent_emit (P : event → bool) (e : event) : P e = false → silent P (emit e).
Proof. intros He w. simpl. rewrite seen_record, He. reflexivity. Qed.

Lemma silent_db_get P (key : string) : silent P (db_get key).
Proof. intros w. reflexivity. Qed.

Lemma silent_db_set P (key : string) (v : pyval) : silent P (db_set key v).
Proof. intros w. reflexivity. Qed.

Lemma silent_datetime_now P : silent P datetime_now.
Proof. intros w. reflexivity. Qed.

Lemma silent_external (P : event → bool) (e : event) : P e = false → silent P (external e).
Proof. intros He w. simpl. rewrite seen_advance, seen_record, He. reflexivity. Qed.

Lemma silent_requests_post P url payload headers :
  P (Posted url payload headers) = false → silent P (requests_post url payload headers).
Proof.
  intros H. apply silent_bind; [apply silent_external, H|intros; apply silent_lift].
Qed.

Lemma silent_requests_get P url headers :
  P (Got url headers) = false → silent P (requests_get url headers).
Proof.
  intros H. apply silent_bind; [apply silent_external, H|intros; apply silent_lift].
Qed.

Lemma silent_server P (call : smtp_call) :
  P (Mailer call) = false → silent P (server call).
Proof.
  intros H. apply silent_bind; [apply silent_external, H|intros; apply silent_lift].
Qed.

Create HintDb silent.
#[local] Hint Resolve silent_ret silent_lift silent_db_get silent_db_set
  silent_datetime_now : silent.

Ltac silent_step :=
  cbv zeta;
  lazymatch goal with
  | |- silent _ (_ ≫= _) => apply silent_bind; [|intros]
  | |- silent _ (try_except _ _) => apply silent_try_except; [|intros]
  | |- silent _ (logger _ _) => apply silent_emit; reflexivity
  | |- silent _ (requests_post _ _ _) => apply silent_requests_post; reflexivity
  | |- silent _ (requests_get _ _) => apply silent_requests_get; reflexivity
  | |- silent _ (server _) => apply silent_server; reflexivity
  | |- silent _ (if ?b then _ else _) => destruct b
  | |- silent _ (match ?x with _ => _ end) => destruct x
  | |- _ => solve [auto with silent]
  end.

Section Run2.

Variable settings : config.
Variable float_of_string : string → option float.

Lemma silent_request_session_token P environment :
  watched P → silent P (request_session_token settings environment).
Proof.
  intros [-> | ->]; unfold request_session_token; destruct environment;
    repeat silent_step.
Qed.

Lemma silent_get_session_token P environment :
  watched P → silent P (get_session_token settings environment).
Proof.
  intros HP. pose proof (silent_request_session_token P environment HP) as Hreq.
  destruct HP as [-> | ->]; unfold get_session_token;
    repeat (first [exact Hreq|silent_step]).
Qed.

Lemma silent_get_position P session_token :
  watched P → silent P (get_position settings float_of_string session_token).
Proof. intros [-> | ->]; unfold get_position; repeat silent_step. Qed.

Lemma silent_rebalance P session_token :
  watched P → silent P (rebalance settings float_of_string session_token).
Proof.
  intros HP. unfold rebalance.
  apply silent_bind; [apply silent_get_position, HP|intros [[q pnl] price]; apply silent_lift].
Qed.


Lemma silent_send_email_body P trade_info error_message :
  watched P →
  ∃ body : M (),
    send_email_update settings float_of_string trade_info error_message =
      (emit (Notified trade_info error_message);;
       try_except body
         (λ e, logger ERROR [Lit "Failed to send email update: "; Exc e])) ∧
    silent P body.
Proof.
  intros HP. eexists. split; [reflexivity|].
  pose proof (silent_get_session_token P ENVIRONMENT HP) as Htok.
  pose proof (λ t, silent_get_position P t HP) as Hpos.
  destruct HP as [-> | ->];
    repeat (first [exact Htok|apply Hpos|silent_step]).
Qed.

Lemma send_email_update_seen P trade_info error_message (w : world) :
  watched P →
  let run := send_email_update settings float_of_string trade_info error_message w in
  run.1 = Ok () ∧
  seen P run.2 = seen P (record (Notified trade_info error_message) w).
Proof.
  intros HP.
  destruct (silent_send_email_body P trade_info error_message HP) as (body & -> & Hbody).
  cbv zeta. unfold mbind, M_bind, emit, try_except. simpl.
  specialize (Hbody (record (Notified trade_info error_message) w)).
  destruct (body _) as [[[]|e] w']; simpl in *; [done|].
  split; [reflexivity|].
  rewrite seen_record.
  destruct HP as [-> | ->]; exact Hbody.
Qed.

(** [send_email_update] returns normally whatever fails inside it; it
    counts as one notification and never posts an order. *)
Theorem notifier_swallows_every_failure trade_info error_message (w : world) :
  let run := send_email_update settings float_of_string trade_info error_message w in
  run.1 = Ok () ∧
  seen is_notification run.2 = Notified trade_info error_message :: seen is_notification w ∧
  seen is_order run.2 = seen is_order w.
Proof.
  cbv zeta.
  destruct (send_email_update_seen is_notification trade_info error_message w
              ltac:(left; reflexivity)) as [Hr Hn].
  destruct (send_email_update_seen is_order trade_info error_message w
              ltac:(right; reflexivity)) as [_ Ho].
  done.
Qed.

(** When the mail relay cannot be reached, [send_email_update] stops there:
    the failure is logged, and neither the shelf nor the brokerage is
    touched. *)
Theorem unreachable_relay_stops_the_notice trade_info error_message (w : world) (e : exn) :
  smtp (remote w (tick w)) = Raise e →
  send_email_update settings float_of_string trade_info error_message w =
    (Ok (),
     record (Logged ERROR [Lit "Failed to send email update: "; Exc e])
       (advance (remote w (tick w))
          (record (Mailer (SMTP "smtp.gmail.com" 587))
             (record (Notified trade_info error_message) w)))).
Proof.
  intros H. unfold send_email_update, mbind at 1, M_bind at 1, emit, try_except.
  unfold mbind at 1, M_bind at 1, server at 1, mbind at 1, M_bind at 1, external, lift.
  simpl. rewrite H. reflexivity.
Qed.

End Run2.

Section Tail.

Variable P : event → bool.
Context {A B : Type}.

(** What follows a computation inside a [try], and the handler, add nothing
    when they are silent. *)
Lemma seen_try_bind (m : M A) (k : A → M B) (handler : exn → M B) (w : world) :
  (∀ a, silent P (k a)) → (∀ e, silent P (handler e)) →
  seen P (try_except (m ≫= k) handler w).2 = seen P (m w).2.
Proof.
  intros Hk Hh. unfold try_except, mbind, M_bind.
  destruct (m w) as [[a|e] w']; simpl.
  - specialize (Hk a w'). destruct (k a w') as [[b|e] w'']; simpl in *; [exact Hk|].
    rewrite Hh. exact Hk.
  - apply Hh.
Qed.

Lemma seen_try (m : M A) (handler : exn → M A) (w : world) :
  (∀ e, silent P (handler e)) →
  seen P (try_except m handler w).2 = seen P (m w).2.
Proof.
  intros Hh. unfold try_except. destruct (m w) as [[a|e] w']; simpl; [reflexivity|apply Hh].
Qed.

Lemma sparing_requests_post url payload headers :
  sparing P (requests_post url payload headers).
Proof.
  intros w. unfold requests_post, external, lift, mbind, M_bind. simpl.
  rewrite seen_advance, seen_record. destruct (P _); simpl; lia.
Qed.

End Tail.

Section Main2.

Variable settings : config.
Variable float_of_string : string → option float.

Lemma silent_send_email_update trade_info error_message :
  silent is_order (send_email_update settings float_of_string trade_info error_message).
Proof.
  intros w.
  destruct (send_email_update_seen settings float_of_string is_order trade_info
              error_message w ltac:(right; reflexivity)) as [_ H].
  exact H.
Qed.

Lemma silent_report (message : fstring) error_message (finished : bool) :
  silent is_order
    (logger ERROR message;;
     send_email_update settings float_of_string PNone error_message;;
     mret finished).
Proof.
  apply silent_bind; [apply silent_emit; reflexivity|intros _].
  apply silent_bind; [apply silent_send_email_update|intros _; apply silent_ret].
Qed.

Lemma sparing_execute_order session_token a shares :
  sparing is_order (execute_order settings float_of_string session_token a shares).
Proof.
  unfold execute_order.
  apply sparing_after_silent;
    [apply silent_get_position; right; reflexivity|intros [[q pnl] price]].
  apply sparing_then_silent; [apply sparing_requests_post|intros; apply silent_lift].
Qed.

Lemma silent_after_order (a : action) (shares : Z) (order_response : pyval) :
  silent is_order
    (price ← lift (dict_get order_response "price" (PFloat 0));
     let trade_info := PDict {[
       "action" := PStr (action_str a);
       "shares" := PInt shares;
       "limit_price" := price ]} in
     logger INFO [Lit "Order submitted successfully: "; Val order_response];;
     send_email_update settings float_of_string trade_info None;;
     mret true).
Proof.
  apply silent_bind; [apply silent_lift|intros price]. cbv zeta.
  apply silent_bind; [apply silent_emit; reflexivity|intros _].
  apply silent_bind; [apply silent_send_email_update|intros _; apply silent_ret].
Qed.

Lemma sparing_main_body : sparing is_order (main_body settings float_of_string).
Proof.
  unfold main_body.
  apply sparing_try_except; [|intros e; apply silent_report].
  apply sparing_after_silent;
    [apply silent_get_session_token; right; reflexivity|intros session_token].
  destruct (negb (truthy session_token)).
  { apply silent_sparing, silent_report. }
  apply sparing_after_silent;
    [apply silent_rebalance; right; reflexivity|intros [[a|] shares_to_trade]].
  - apply sparing_after_silent; [apply silent_emit; reflexivity|intros _].
    apply sparing_try_except; [|intros e; apply silent_report].
    apply sparing_then_silent; [apply sparing_execute_order|].
    intros order_response. apply silent_after_order.
  - apply silent_sparing.
    apply silent_bind; [apply silent_emit; reflexivity|intros _].
    apply silent_bind; [apply silent_send_email_update|intros _; apply silent_ret].
Qed.

(** A run of [main] posts at most one order. *)
Theorem at_most_one_order_per_run (w : world) :
  (length (seen is_order (main settings float_of_string w).2)
   ≤ S (length (seen is_order w)))%nat.
Proof.
  assert (sparing is_order (main settings float_of_string)) as H.
  { unfold main.
    apply sparing_after_silent; [apply silent_emit; reflexivity|intros _].
    apply sparing_then_silent; [apply sparing_main_body|].
    intros [|]; [apply silent_emit; reflexivity|apply silent_ret]. }
  apply H.
Qed.

(** [main] is its body between two log records. *)
Lemma main_outcome (P : event → bool) (w : world) :
  watched P →
  let run := main settings float_of_string w in
  run.1 = Ok () ∧
  seen P run.2 = seen P (main_body settings float_of_string (started w)).2.
Proof.
  intros HP. cbv zeta. unfold main, mbind, M_bind, logger, emit. simpl. fold (started w).
  destruct (fires_main_body settings float_of_string (started w)) as [[b Hb] _].
  destruct (main_body settings float_of_string (started w)) as [r w']. simpl in *. subst r.
  destruct b; simpl; [|done]. split; [done|].
  rewrite seen_record. destruct HP as [-> | ->]; reflexivity.
Qed.

Lemma seen_started (P : event → bool) (w : world) :
  watched P → seen P (started w) = seen P w.
Proof. intros [-> | ->]; reflexivity. Qed.

Lemma rebalance_absent (session_token : pyval) (w : world) (items : list pyval) :
  answers_holdings w items →
  Forall other_instrument items →
  rebalance settings float_of_string session_token w =
    (Raise ZeroDivisionError, after_positions settings session_token w).
Proof.
  intros (resp & positions & data & Hhttp & Hjson & Hdata & Hitems) Habsent.
  unfold rebalance, mbind, M_bind.
  rewrite (get_position_absent settings float_of_string session_token w resp positions
             data items Hhttp Hjson Hdata Hitems Habsent).
  reflexivity.
Qed.

(** With a session token but no TQQQ entry among the holdings, [main] never
    buys: the price read is 0.0, the division raises, and the run ends with
    the notice of an unexpected error, without an order. *)
Theorem first_purchase_ends_in_division_by_zero (w : world) (session_token : pyval)
    (items : list pyval) :
  let login := get_session_token settings ENVIRONMENT (started w) in
  login.1 = Ok session_token →
  truthy session_token = true →
  answers_holdings login.2 items →
  Forall other_instrument items →
  let run := main settings float_of_string w in
  run.1 = Ok () ∧
  seen is_notification run.2 =
    Notified PNone (Some [Lit "Unexpected error in rebalancing process: ";
                          Exc ZeroDivisionError]) :: seen is_notification w ∧
  seen is_order run.2 = seen is_order w.
Proof.
  intros login Hlogin Htruthy Hholdings Habsent.
  assert (∀ P, watched P →
            seen P (main_body settings float_of_string (started w)).2 =
            seen P (record (Notified PNone
                              (Some [Lit "Unexpected error in rebalancing process: ";
                                     Exc ZeroDivisionError])) w)) as Hbody.
  { intros P HP.
    pose proof (silent_get_session_token settings P ENVIRONMENT HP (started w)) as Hsilent.
    fold login in Hsilent.
    unfold main_body, try_except. unfold mbind at 1, M_bind at 1. fold login.
    destruct login as [r1 w1]. simpl in Hlogin, Hholdings, Hsilent. subst r1.
    rewrite Htruthy. simpl. unfold mbind at 1, M_bind at 1.
    rewrite (rebalance_absent session_token w1 items Hholdings Habsent).
    unfold mbind, M_bind, logger, emit. simpl.
    match goal with
    | |- context [send_email_update _ _ ?ti ?em ?w2] =>
        destruct (send_email_update_seen settings float_of_string P ti em w2 HP) as [Hr Hs];
        destruct (send_email_update settings float_of_string ti em w2) as [r3 w3]
    end.
    simpl in *. subst r3. simpl. rewrite Hs.
    rewrite !seen_record. unfold after_positions.
    rewrite seen_advance, seen_record, Hsilent, (seen_started P w HP).
    destruct HP as [-> | ->]; reflexivity. }
  cbv zeta.
  destruct (main_outcome is_notification w ltac:(left; reflexivity)) as [Hr Hn].
  destruct (main_outcome is_order w ltac:(right; reflexivity)) as [_ Ho].
  split; [exact Hr|].
  rewrite Hn, Ho, !Hbody by (first [left; reflexivity|right; reflexivity]).
  split; reflexivity.
Qed.

(** When [rebalance] decides a trade, the one order [main] posts carries
    the action and the share count of that decision, and a limit price
    taken from the price that [execute_order] reads afterwards, not from
    the price the decision was made with. *)
Theorem decided_order_is_priced_at_second_reading (w w2 : world) (session_token : pyval)
    (a : action) (shares : Z) (quantity : number) (pnl current_price : float) :
  let login := get_session_token settings ENVIRONMENT (started w) in
  login.1 = Ok session_token →
  truthy session_token = true →
  rebalance settings float_of_string session_token login.2 = (Ok (Some a, shares), w2) →
  (get_position settings float_of_string session_token (announced a shares w2)).1 =
    Ok (quantity, pnl, current_price) →
  let run := main settings float_of_string w in
  run.1 = Ok () ∧
  seen is_order run.2 =
    Posted (orders_url settings) (order_payload a shares current_price)
           {[ "Authorization" := session_token ]} :: seen is_order w.
Proof.
  intros login Hlogin Htruthy Hdecision Hread. cbv zeta.
  destruct (main_outcome is_order w ltac:(right; reflexivity)) as [Hr ->].
  split; [exact Hr|].
  pose proof (silent_get_session_token settings is_order ENVIRONMENT
                ltac:(right; reflexivity) (started w)) as Hsilent1.
  fold login in Hsilent1.
  pose proof (silent_rebalance settings float_of_string is_order session_token
                ltac:(right; reflexivity) login.2) as Hsilent2.
  rewrite Hdecision in Hsilent2. simpl in Hsilent2.
  unfold main_body. rewrite seen_try by (intros e; apply silent_report).
  unfold mbind at 1, M_bind at 1. fold login.
  destruct login as [r1 w1]. simpl in Hlogin, Hdecision, Hsilent1, Hsilent2. subst r1.
  rewrite Htruthy. simpl. unfold mbind at 1, M_bind at 1. rewrite Hdecision.
  unfold mbind at 1, M_bind at 1, logger at 1, emit at 1. fold (announced a shares w2).
  rewrite seen_try_bind;
    [|intros order_response; apply silent_after_order|intros e; apply silent_report].
  pose proof (get_position_world settings float_of_string session_token
                (announced a shares w2)) as Hworld.
  destruct (get_position settings float_of_string session_token (announced a shares w2))
    as [r4 w4] eqn:Hpos. simpl in Hread, Hworld. subst r4.
  unfold seen.
  rewrite (execute_order_posts settings float_of_string session_token a shares
             (announced a shares w2) w4 quantity pnl current_price Hpos).
  simpl. destruct a; simpl; f_equal.
  all: rewrite Hworld; unfold after_positions; simpl.
  all: fold (seen is_order w2); rewrite Hsilent2, Hsilent1; reflexivity.
Qed.

End Main2.

Section Paths2.

Variable settings : config.
Variable float_of_string : string → option float.

(** A notice sent on the way out returns, adds its own entry and no
    order. *)
Lemma notice_seen (P : event → bool) (level : log_level) (message : fstring)
    (error_message : option fstring) (finished : bool) (w : world) :
  watched P →
  let run := (logger level message;;
              send_email_update settings float_of_string PNone error_message;;
              mret finished) w in
  run.1 = Ok finished ∧
  seen P run.2 = seen P (record (Notified PNone error_message) w).
Proof.
  intros HP. cbv zeta. unfold mbind, M_bind, logger, emit. simpl.
  match goal with
  | |- context [send_email_update _ _ ?ti ?em ?w2] =>
      destruct (send_email_update_seen settings float_of_string P ti em w2 HP) as [Hr Hs];
      destruct (send_email_update settings float_of_string ti em w2) as [r3 w3]
  end.
  simpl in *. subst r3. simpl. split; [reflexivity|]. rewrite Hs, !seen_record.
  destruct HP as [-> | ->]; reflexivity.
Qed.

(** A run whose body ends with one plain notice. *)
Lemma main_exit (w : world) (error_message : option fstring) :
  (∀ P, watched P →
     seen P (main_body settings float_of_string (started w)).2 =
     seen P (record (Notified PNone error_message) w)) →
  let run := main settings float_of_string w in
  run.1 = Ok () ∧
  seen is_notification run.2 = Notified PNone error_message :: seen is_notification w ∧
  seen is_order run.2 = seen is_order w.
Proof.
  intros Hbody. cbv zeta.
  destruct (main_outcome settings float_of_string is_notification w
              ltac:(left; reflexivity)) as [Hr Hn].
  destruct (main_outcome settings float_of_string is_order w
              ltac:(right; reflexivity)) as [_ Ho].
  split; [exact Hr|].
  rewrite Hn, Ho, !Hbody by (first [left; reflexivity|right; reflexivity]).
  split; reflexivity.
Qed.

(** When [get_session_token] returns [None] or an empty token, [main]
    sends the notice that it failed to get a session token, and posts no
    order. *)
Theorem missing_token_is_reported (w : world) (session_token : pyval) :
  let login := get_session_token settings ENVIRONMENT (started w) in
  login.1 = Ok session_token →
  truthy session_token = false →
  let run := main settings float_of_string w in
  run.1 = Ok () ∧
  seen is_notification run.2 =
    Notified PNone (Some [Lit "Failed to get session token"]) :: seen is_notification w ∧
  seen is_order run.2 = seen is_order w.
Proof.
  intros login Hlogin Hfalsy. apply main_exit. intros P HP.
  pose proof (silent_get_session_token settings P ENVIRONMENT HP (started w)) as Hsilent.
  fold login in Hsilent.
  unfold main_body, try_except. unfold mbind at 1, M_bind at 1. fold login.
  destruct login as [r1 w1]. simpl in Hlogin, Hsilent. subst r1.
  rewrite Hfalsy. simpl.
  match goal with
  | |- context [(logger ?l ?m;; send_email_update _ _ PNone ?em;; mret ?b) ?w2] =>
      destruct (notice_seen P l m em b w2 HP) as [Hr Hs];
      destruct ((logger l m;; send_email_update settings float_of_string PNone em;;
                 mret b) w2) as [r3 w3]
  end.
  simpl in *. subst r3. simpl. rewrite Hs, !seen_record, Hsilent, (seen_started P w HP).
  reflexivity.
Qed.

(** When [rebalance] decides that nothing is to be traded, [main] sends a
    notice that carries neither a trade nor an error, and posts no order. *)
Theorem no_trade_is_reported (w : world) (session_token : pyval) (shares : Z) :
  let login := get_session_token settings ENVIRONMENT (started w) in
  login.1 = Ok session_token →
  truthy session_token = true →
  (rebalance settings float_of_string session_token login.2).1 = Ok (None, shares) →
  let run := main settings float_of_string w in
  run.1 = Ok () ∧
  seen is_notification run.2 = Notified PNone None :: seen is_notification w ∧
  seen is_order run.2 = seen is_order w.
Proof.
  intros login Hlogin Htruthy Hdecision. apply main_exit. intros P HP.
  pose proof (silent_get_session_token settings P ENVIRONMENT HP (started w)) as Hsilent.
  fold login in Hsilent.
  pose proof (silent_rebalance settings float_of_string P session_token HP login.2)
    as Hsilent2.
  unfold main_body, try_except. unfold mbind at 1, M_bind at 1. fold login.
  destruct login as [r1 w1]. simpl in Hlogin, Hsilent, Hsilent2, Hdecision. subst r1.
  rewrite Htruthy. simpl. unfold mbind at 1, M_bind at 1.
  destruct (rebalance settings float_of_string session_token w1) as [r2 w2].
  simpl in Hdecision, Hsilent2. subst r2.
  match goal with
  | |- context [(logger ?l ?m;; send_email_update _ _ PNone ?em;; mret ?b) ?w2] =>
      destruct (notice_seen P l m em b w2 HP) as [Hr Hs];
      destruct ((logger l m;; send_email_update settings float_of_string PNone em;;
                 mret b) w2) as [r3 w3]
  end.
  simpl in *. subst r3. simpl.
  rewrite Hs, !seen_record, Hsilent2, Hsilent, (seen_started P w HP).
  reflexivity.
Qed.

End Paths2.

(** ** More on the schedule *)

Section Schedule.

Variable settings : config.
Variable float_of_string : string → option float.



(** In December 9999 the gate raises, and [scheduled_job] passes the
    [ValueError] on before anything is logged or sent. *)
Theorem scheduled_job_fails_in_december_9999 (nyse : calendar) (today : date) (w : world) :
  valid_date today →
  year today = 9999 ∧ month today = 12 →
  scheduled_job settings float_of_string nyse today w = (Raise ValueError, w).
Proof.
  intros Hv Hlast. unfold scheduled_job, mbind, M_bind, lift.
  rewrite is_last_trading_day_december_9999 by done. reflexivity.
Qed.

End Schedule.

Lemma rest_of_month_from (d1 d2 : date) :
  valid_date d1 → valid_date d2 →
  year d1 = year d2 → month d1 = month d2 → day d1 ≤ day d2 →
  rest_of_month d1 =
    (Date (year d1) (month d1) <$> seqZ (day d1) (day d2 - day d1)) ++ rest_of_month d2.
Proof.
  intros (_ & _ & Hd1) (_ & _ & Hd2) Hy Hm Hle.
  unfold rest_of_month. rewrite <- Hy, <- Hm in *.
  rewrite <- fmap_app. f_equal.
  replace (days_in_month (year d1) (month d1) - day d1 + 1)
    with ((day d2 - day d1) + (days_in_month (year d1) (month d1) - day d2 + 1)) by lia.
  rewrite seqZ_app by lia. do 2 f_equal. lia.
Qed.

Lemma gate_open_last (nyse : calendar) (today : date) :
  valid_date today →
  is_last_trading_day nyse today = Ok true →
  last (valid_days nyse today (first_of_next_month today)) = Some today.
Proof.
  intros Hv Hopen.
  destruct (decide (year today = 9999 ∧ month today = 12)) as [Hlast|Hrange].
  { rewrite is_last_trading_day_december_9999 in Hopen by done. discriminate Hopen. }
  rewrite is_last_trading_day_value in Hopen by done. cbv zeta in Hopen.
  injection Hopen as H. apply bool_decide_eq_true in H. tauto.
Qed.

Lemma gate_open_later (nyse : calendar) (d1 d2 : date) :
  valid_date d1 → valid_date d2 →
  year d1 = year d2 → month d1 = month d2 → day d1 ≤ day d2 →
  is_last_trading_day nyse d1 = Ok true →
  is_last_trading_day nyse d2 = Ok true →
  d1 = d2.
Proof.
  intros Hv1 Hv2 Hy Hm Hle H1 H2.
  apply gate_open_last in H1; [|exact Hv1]. apply gate_open_last in H2; [|exact Hv2].
  assert (first_of_next_month d1 = first_of_next_month d2) as Hnext.
  { unfold first_of_next_month. rewrite Hy, Hm. reflexivity. }
  unfold valid_days in *.
  rewrite date_range_month in H1, H2 by done.
  rewrite (rest_of_month_from d1 d2) in H1 by done.
  rewrite Hnext, <- app_assoc, filter_app, last_app, H2 in H1.
  congruence.
Qed.

(** Whatever the calendar, the gate opens on at most one day of a month:
    once it has returned true on a day, it does not on any other day of
    that month. *)
Theorem gate_opens_once_a_month (nyse : calendar) (d1 d2 : date) :
  valid_date d1 → valid_date d2 →
  year d1 = year d2 → month d1 = month d2 →
  d1 ≠ d2 →
  is_last_trading_day nyse d1 = Ok true →
  is_last_trading_day nyse d2 ≠ Ok true.
Proof.
  intros Hv1 Hv2 Hy Hm Hne H1 H2. apply Hne.
  destruct (Z.le_ge_cases (day d1) (day d2)) as [Hle|Hge].
  - exact (gate_open_later nyse d1 d2 Hv1 Hv2 Hy Hm Hle H1 H2).
  - symmetry. apply (gate_open_later nyse d2 d1); done.
Qed.

(** ** Runs of the properties above on the sample data *)

Ltac holdings_answer :=
  unfold answers_holdings; eexists _, _, _; repeat split; reflexivity.

Lemma second_call_sample :
  let w1 := (get_session_token sample_settings sandbox
               (fresh_world 1000000 session_created)).2 in
  let again := get_session_token sample_settings sandbox w1 in
  again.1 = Ok (PStr "t0k3n") ∧
  shelf again.2 = shelf w1 ∧
  requests_made again.2 = requests_made w1 ∧
  tick again.2 = tick w1.
Proof.
  apply (second_call_is_served_from_the_shelf sample_settings sandbox
           (fresh_world 1000000 session_created) (PStr "t0k3n")); reflexivity.
Defined.

Lemma broken_login_sample :
  let run := get_session_token sample_settings sandbox
               (fresh_world 0 created_without_token) in
  run.1 = Raise (KeyError "session-token") ∧
  shelf run.2 = ∅ ∧
  requests_made run.2 = 1%nat.
Proof.
  apply (broken_login_raises_and_stores_nothing sample_settings sandbox
           (fresh_world 0 created_without_token) (KeyError "session-token")).
  - apply token_missing. reflexivity.
  - apply (token_missing_in_data _ _
             (Response 201 "{...}" (Ok (PDict {[ "data" := PDict ∅ ]})))
             (PDict {[ "data" := PDict ∅ ]}) (PDict ∅)); reflexivity.
Defined.

Lemma entry_without_symbol_sample :
  (get_position sample_settings no_float_of_string (PStr "t0k3n")
     (fresh_world 0 (holdings [spy_position; nameless_position; tqqq_position]))).1
  = Raise (KeyError "symbol").
Proof.
  apply (entry_without_symbol_hides_position sample_settings no_float_of_string
           (PStr "t0k3n")
           (fresh_world 0 (holdings [spy_position; nameless_position; tqqq_position]))
           [spy_position] [tqqq_position] nameless_position (KeyError "symbol")).
  - holdings_answer.
  - constructor; [|constructor]. exists (PStr "SPY"). split; reflexivity.
  - reflexivity.
Defined.

Lemma position_sign_sample :
  (get_position sample_settings no_float_of_string (PStr "t0k3n")
     (fresh_world 0 (holdings [spy_position; short_position; tqqq_position]))).1
  = Ok (Float (-10), (-100)%float, 60%float).
Proof.
  apply (position_sign_convention sample_settings no_float_of_string (PStr "t0k3n")
           (fresh_world 0 (holdings [spy_position; short_position; tqqq_position]))
           [spy_position] [tqqq_position] short_position (PStr "Short")
           10%float 50%float 60%float 1%float).
  - holdings_answer.
  - constructor; [|constructor]. exists (PStr "SPY"). split; reflexivity.
  - unfold tqqq_entry, reads_as.
    repeat split; try reflexivity; eexists; split; reflexivity.
  - reflexivity.
Defined.

Lemma no_order_without_position_read_sample :
  execute_order sample_settings no_float_of_string (PStr "t0k3n") BUY 23
    (fresh_world 0 session_refused) =
  (Raise (ExternalError "JSONDecodeError"),
   after_positions sample_settings (PStr "t0k3n") (fresh_world 0 session_refused)).
Proof.
  apply (no_order_without_position_read sample_settings no_float_of_string
           (PStr "t0k3n") BUY 23 (fresh_world 0 session_refused)
           (ExternalError "JSONDecodeError")).
  reflexivity.
Defined.

Lemma order_without_holding_sample :
  let w := fresh_world 0 (holdings [spy_position]) in
  ∃ payload headers,
    trace (execute_order sample_settings no_float_of_string (PStr "t0k3n") BUY 20 w).2 =
      Posted (orders_url sample_settings) payload headers ::
      trace (after_positions sample_settings (PStr "t0k3n") w) ∧
    getitem payload "price" = Ok (PFloat 0).
Proof.
  apply (order_without_holding_is_priced_zero sample_settings no_float_of_string
           (PStr "t0k3n") BUY 20 (fresh_world 0 (holdings [spy_position]))
           [spy_position]).
  - holdings_answer.
  - constructor; [|constructor]. exists (PStr "SPY"). split; reflexivity.
Defined.

Lemma unreachable_relay_sample :
  let run := send_email_update sample_settings no_float_of_string PNone None
               (scripted_world []) in
  run.1 = Ok () ∧ requests_made run.2 = 0%nat ∧ shelf run.2 = ∅.
Proof.
  rewrite (unreachable_relay_stops_the_notice sample_settings no_float_of_string
             PNone None (scripted_world []) (ExternalError "SMTPServerDisconnected"));
    [|reflexivity].
  repeat split.
Defined.

Lemma first_purchase_sample :
  let run := main sample_settings no_float_of_string
               (scripted_world [session_created; holdings [spy_position]]) in
  run.1 = Ok () ∧
  seen is_notification run.2 =
    [Notified PNone (Some [Lit "Unexpected error in rebalancing process: ";
                           Exc ZeroDivisionError])] ∧
  seen is_order run.2 = [].
Proof.
  apply (first_purchase_ends_in_division_by_zero sample_settings no_float_of_string
           (scripted_world [session_created; holdings [spy_position]])
           (PStr "t0k3n") [spy_position]).
  - reflexivity.
  - reflexivity.
  - holdings_answer.
  - constructor; [|constructor]. exists (PStr "SPY"). split; reflexivity.
Defined.

Lemma decided_order_sample :
  let w := scripted_world [session_created; holdings [tqqq_position];
                           holdings [balanced_position]; order_received] in
  let run := main sample_settings no_float_of_string w in
  run.1 = Ok () ∧
  seen is_order run.2 =
    Posted (orders_url sample_settings) (order_payload BUY 23 199.5)
           {[ "Authorization" := PStr "t0k3n" ]} :: seen is_order w.
Proof.
  apply (decided_order_is_priced_at_second_reading sample_settings no_float_of_string
           (scripted_world [session_created; holdings [tqqq_position];
                            holdings [balanced_position]; order_received])
           (rebalance sample_settings no_float_of_string (PStr "t0k3n")
              (get_session_token sample_settings ENVIRONMENT
                 (started (scripted_world [session_created; holdings [tqqq_position];
                                           holdings [balanced_position];
                                           order_received]))).2).2
           (PStr "t0k3n") BUY 23 (Float 10) 1495%float 199.5%float).
  - vm_compute. reflexivity.
  - reflexivity.
  - vm_compute. reflexivity.
  - vm_compute. reflexivity.
Defined.

Lemma missing_token_sample :
  let run := main sample_settings no_float_of_string (scripted_world [session_refused]) in
  run.1 = Ok () ∧
  seen is_notification run.2 =
    [Notified PNone (Some [Lit "Failed to get session token"])] ∧
  seen is_order run.2 = [].
Proof.
  apply (missing_token_is_reported sample_settings no_float_of_string
           (scripted_world [session_refused]) PNone); reflexivity.
Defined.

Lemma no_trade_sample :
  let run := main sample_settings no_float_of_string
               (scripted_world [session_created; holdings [balanced_position]]) in
  run.1 = Ok () ∧
  seen is_notification run.2 = [Notified PNone None] ∧
  seen is_order run.2 = [].
Proof.
  apply (no_trade_is_reported sample_settings no_float_of_string
           (scripted_world [session_created; holdings [balanced_position]])
           (PStr "t0k3n") 0); reflexivity.
Defined.


Lemma scheduled_job_december_9999_sample :
  scheduled_job sample_settings no_float_of_string weekdays (Date 9999 12 31)
    (scripted_world []) = (Raise ValueError, scripted_world []).
Proof.
  apply (scheduled_job_fails_in_december_9999 sample_settings no_float_of_string
           weekdays (Date 9999 12 31) (scripted_world [])).
  - unfold valid_date. simpl. lia.
  - split; reflexivity.
Defined.

Lemma gate_opens_once_sample :
  is_last_trading_day friday_closed (Date 2024 8 29) = Ok true ∧
  is_last_trading_day friday_closed (Date 2024 8 30) ≠ Ok true.
Proof.
  split; [vm_compute; reflexivity|].
  apply (gate_opens_once_a_month friday_closed (Date 2024 8 29) (Date 2024 8 30)).
  - unfold valid_date. simpl. lia.
  - unfold valid_date. simpl. lia.
  - reflexivity.
  - reflexivity.
  - discriminate.
  - vm_compute. reflexivity.
Defined.

Lemma gate_right_sample :
  is_last_trading_day friday_closed (Date 2024 8 29) = Ok true ↔
    last_trading_day_of_month friday_closed 2024 8 = Some (Date 2024 8 29).
Proof.
  apply (gate_right_when_next_month_opens_closed friday_closed (Date 2024 8 29)).
  - unfold valid_date. simpl. lia.
  - simpl. lia.
  - reflexivity.
Defined.
